(** * discord-weather-bot: the NWS client and the alert classifier

    A shallow embedding of [nws.py] (the rate-gated client of the
    api.weather.gov endpoints) and of the per-alert analysis in
    [main.py] ([slash_getwarnings]), followed by the properties proved
    about them.

    Conventions of the embedding.
    - Python [str] values are Rocq strings (the bytes of their UTF-8
      text).  [str.lower] acts on the ASCII letters; every literal the
      program searches for is ASCII.  The class [\d] is read on the
      characters decoded from the text, with the decimal digits of the
      interpreter's Unicode database, which the environment supplies.
    - [time.time()] readings and durations are exact rationals, in
      seconds; the rounding of Python's float subtraction is outside
      the model.
    - Exceptions are values of [exn]; a call either returns or raises.
    - The clock, the HTTP server and the geolocation database are
      oracles collected in [Env]; what the program does to the outside
      (requests sent, lines appended to api_err_log.txt) is recorded in
      the system state. *)

From Stdlib Require Import Bool Ascii String List ZArith QArith Lia Lqa.
Import ListNotations.

Local Close Scope Q_scope.
Local Open Scope list_scope.
Local Open Scope string_scope.

(** ** Python runtime: exceptions and outcomes *)

Module Py.

(** The three exception classes of nws.py derive from [BaseException]
    (nws.py:10, 14, 18); everything the interpreter or a library raises
    on the paths modelled here (KeyError, TypeError, IndexError,
    requests' ConnectionError and JSONDecodeError) derives from
    [Exception] and is a [PyException] with its class name and the text
    of [str(e)]. *)
Inductive exn : Type :=
| RateLimitError (wait_time : Q)
| APIError (status_code : Z)
| UnknownError (message : string)
| PyException (class_name : string) (text : string).

(** [isinstance(e, Exception)]: what an [except Exception] clause catches. *)
Definition is_Exception (e : exn) : bool :=
  match e with
  | PyException _ _ => true
  | RateLimitError _ | APIError _ | UnknownError _ => false
  end.

Inductive outcome (A : Type) : Type :=
| Returns (a : A)
| Raises (e : exn).
Arguments Returns {A} a.
Arguments Raises {A} e.

Definition obind {A B} (x : outcome A) (f : A -> outcome B) : outcome B :=
  match x with
  | Returns a => f a
  | Raises e => Raises e
  end.

(** *** Strings *)

Definition newline : string := String (ascii_of_nat 10) "".

Definition lower_char (c : ascii) : ascii :=
  let n := nat_of_ascii c in
  if (65 <=? n)%nat && (n <=? 90)%nat then ascii_of_nat (n + 32) else c.

(** [s.lower()].  Of the characters beyond A-Z that [str.lower] changes,
    two give a letter a-z: the Kelvin sign gives "k", and the dotted
    capital I gives "i" with a combining dot after it.  The words the
    program looks for in lowered texts have no "k" and do not end in "i",
    so what it finds there does not depend on them. *)
Fixpoint lower (s : string) : string :=
  match s with
  | "" => ""
  | String c s' => String (lower_char c) (lower s')
  end.

(** [pat in s] for two strings *)
Fixpoint contains (pat s : string) : bool :=
  if String.prefix pat s then true
  else match s with
       | "" => false
       | String _ s' => contains pat s'
       end.

(** [s[n:]] and [s[:n]] *)
Fixpoint drop (n : nat) (s : string) : string :=
  match n, s with
  | S n', String _ s' => drop n' s'
  | _, _ => s
  end.

Fixpoint take (n : nat) (s : string) : string :=
  match n, s with
  | S n', String c s' => String c (take n' s')
  | _, _ => ""
  end.

(** *** Dictionaries and lists *)

(** [d.get(key, default)] on a dict with string keys *)
Fixpoint dict_get {V : Type} (d : list (string * V)) (key : string) (default : V) : V :=
  match d with
  | [] => default
  | (k, v) :: d' => if String.eqb k key then v else dict_get d' key default
  end.

(** [l[0]] on a list *)
Definition item0 {A : Type} (l : list A) : outcome A :=
  match l with
  | x :: _ => Returns x
  | [] => Raises (PyException "IndexError" "list index out of range")
  end.

(** *** Regular expressions

    The fragment of [re] the program uses: literals, one-or-more of a
    character class (greedy), concatenation and alternation; groups do
    not change [match[0]].  The matcher backtracks the way [re] does:
    the left alternative first, the longest repetition first. *)
Inductive regex : Type :=
| Lit (s : string)
| Plus (cls : ascii -> bool)
| Seq (r1 r2 : regex)
| Alt (r1 r2 : regex)
| PlusU (cls : N -> bool).

(** [.] matches everything but a newline *)
Definition dot (c : ascii) : bool := negb (Ascii.eqb c (ascii_of_nat 10)).

(** [[a-zA-Z]] *)
Definition letter (c : ascii) : bool :=
  let n := nat_of_ascii c in
  ((97 <=? n)%nat && (n <=? 122)%nat) || ((65 <=? n)%nat && (n <=? 90)%nat).

(** A class of [Plus] is a class of bytes: it serves for [.] and for
    [[a-zA-Z]], whose members and whose complement in the text are whole
    characters.  A class of [PlusU] is a class of characters, given on
    their code points: it serves for [\d], whose members beyond 0-9 take
    two to four bytes. *)

(** What a continuation byte of UTF-8 carries. *)
Definition continuation (c : ascii) : option N :=
  let n := N_of_ascii c in
  if (128 <=? n)%N && (n <? 192)%N then Some (n - 128)%N else None.

(** The first character of a text, as its code point, and the text after
    it. *)
Definition next_char (s : string) : option (N * string) :=
  match s with
  | "" => None
  | String b0 s1 =>
      let n0 := N_of_ascii b0 in
      if (n0 <? 128)%N then Some (n0, s1)
      else if (192 <=? n0)%N && (n0 <? 224)%N then
        match s1 with
        | String b1 s2 =>
            match continuation b1 with
            | Some n1 => Some (((n0 - 192) * 64 + n1)%N, s2)
            | None => None
            end
        | _ => None
        end
      else if (224 <=? n0)%N && (n0 <? 240)%N then
        match s1 with
        | String b1 (String b2 s3) =>
            match continuation b1, continuation b2 with
            | Some n1, Some n2 => Some ((((n0 - 224) * 64 + n1) * 64 + n2)%N, s3)
            | _, _ => None
            end
        | _ => None
        end
      else if (240 <=? n0)%N && (n0 <? 248)%N then
        match s1 with
        | String b1 (String b2 (String b3 s4)) =>
            match continuation b1, continuation b2, continuation b3 with
            | Some n1, Some n2, Some n3 =>
                Some (((((n0 - 240) * 64 + n1) * 64 + n2) * 64 + n3)%N, s4)
            | _, _, _ => None
            end
        | _ => None
        end
      else None
  end.

(** [s[0]] on a text that is not empty: its first character *)
Definition first_char (s : string) : string :=
  match next_char s with
  | Some (_, rest) => take (String.length s - String.length rest) s
  | None => take 1 s
  end.

Fixpoint strip_prefix (p s : string) : option string :=
  match p, s with
  | "", _ => Some s
  | String a p', String b s' => if Ascii.eqb a b then strip_prefix p' s' else None
  | String _ _, "" => None
  end.

(** In [match_plus cls s k] and [rmatch r s k], [k] is the rest of the
    pattern: it receives what is left of the input and answers with what
    is left at the end of the whole match. *)
Fixpoint match_plus (cls : ascii -> bool) (s : string)
         (k : string -> option string) : option string :=
  match s with
  | "" => None
  | String c s' =>
      if cls c then
        match match_plus cls s' k with
        | Some rest => Some rest
        | None => k s'
        end
      else None
  end.

(** One or more characters of a class, the most first.  Every character
    takes a byte at least, so [fuel] is enough when it is the length of
    the text. *)
Fixpoint match_plus_u (cls : N -> bool) (fuel : nat) (s : string)
         (k : string -> option string) : option string :=
  match fuel with
  | O => None
  | S fuel' =>
      match next_char s with
      | Some (cp, s') =>
          if cls cp then
            match match_plus_u cls fuel' s' k with
            | Some rest => Some rest
            | None => k s'
            end
          else None
      | None => None
      end
  end.

Fixpoint rmatch (r : regex) (s : string) (k : string -> option string) : option string :=
  match r with
  | Lit l => match strip_prefix l s with
             | Some s' => k s'
             | None => None
             end
  | Plus cls => match_plus cls s k
  | Seq r1 r2 => rmatch r1 s (fun s' => rmatch r2 s' k)
  | Alt r1 r2 => match rmatch r1 s k with
                 | Some rest => Some rest
                 | None => rmatch r2 s k
                 end
  | PlusU cls => match_plus_u cls (String.length s) s k
  end.

(** A match anchored at the start of [s]: the text matched. *)
Definition match_here (r : regex) (s : string) : option string :=
  match rmatch r s Some with
  | Some rest => Some (take (String.length s - String.length rest) s)
  | None => None
  end.

(** [re.search(r, s)]: [None], or [match[0]] of the leftmost match. *)
Fixpoint re_search (r : regex) (s : string) : option string :=
  match match_here r s with
  | Some m => Some m
  | None => match s with
            | "" => None
            | String _ s' => re_search r s'
            end
  end.

End Py.
Import Py.

(** ** main.py: the analysis of one alert in [slash_getwarnings] *)

Module Main.

(** One element of [alerts["features"]], as the alerts endpoint documents
    it: [feature["properties"]] with its four texts and the [parameters]
    dict from names to lists of strings.  What the analysis does on an
    element of another shape (a text that is null, a parameter that is no
    list) is in [Bot.json_special_flags], which is this analysis on the
    elements of this shape. *)
Record AlertFeature : Type := {
  onset : string;
  expires : string;
  headline : string;
  description : string;
  parameters : list (string * list string)
}.

(** The four locals declared at main.py:207-210. *)
Record Flags : Type := {
  pds_tor : bool;
  emergency_tor : bool;
  destructive_tstorm : bool;
  emergency_flood : bool
}.

Definition no_flags : Flags :=
  {| pds_tor := false; emergency_tor := false;
     destructive_tstorm := false; emergency_flood := false |}.

(** [r"(.+ watch|.+ warning)"], main.py:202 *)
Definition alert_type_re : regex :=
  Alt (Seq (Plus dot) (Lit " watch")) (Seq (Plus dot) (Lit " warning")).

(** [r"(warning|emergency)"], main.py:218 *)
Definition severity_re : regex := Alt (Lit "warning") (Lit "emergency").

(** main.py:213-220, the tornado branch *)
Definition tornado_details (feature : AlertFeature) : outcome Flags :=
  if contains "particularly dangerous situation" (lower (description feature)) then
    Returns {| pds_tor := true; emergency_tor := false;
               destructive_tstorm := false; emergency_flood := false |}
  else
    obind (item0 (dict_get (parameters feature) "NWSheadline" [""])) (fun v =>
    let nws_headline := lower v in
    let severity := re_search severity_re (lower nws_headline) in
    match severity with
    | Some sev =>
        if contains "emergency" (lower sev) then
          Returns {| pds_tor := false; emergency_tor := true;
                     destructive_tstorm := false; emergency_flood := false |}
        else Returns no_flags
    | None => Returns no_flags
    end).

(** main.py:223-226, the severe thunderstorm branch *)
Definition tstorm_details (feature : AlertFeature) : outcome Flags :=
  obind (item0 (dict_get (parameters feature) "damageThreat" ["Unknown"])) (fun damage_threat =>
  if String.eqb (lower damage_threat) "destructive" then
    Returns {| pds_tor := false; emergency_tor := false;
               destructive_tstorm := true; emergency_flood := false |}
  else Returns no_flags).

(** main.py:229-232, the flash flood branch *)
Definition flood_details (feature : AlertFeature) : outcome Flags :=
  obind (item0 (dict_get (parameters feature) "NWSheadline" [""])) (fun v =>
  let nws_headline := lower v in
  if contains "flash flood emergency" nws_headline
     || contains "flash flood emergency" (description feature) then
    Returns {| pds_tor := false; emergency_tor := false;
               destructive_tstorm := false; emergency_flood := true |}
  else Returns no_flags).

(** main.py:202-232: the flags once the alert has been analysed. *)
Definition special_flags (feature : AlertFeature) : outcome Flags :=
  let alert_type := re_search alert_type_re (lower (headline feature)) in
  match alert_type with
  | None => Returns no_flags
  | Some alert_type0 =>
      if contains "tornado" (lower alert_type0) then tornado_details feature
      else if contains "severe thunderstorm" (lower alert_type0) then tstorm_details feature
      else if contains "flash flood" (lower alert_type0) then flood_details feature
      else Returns no_flags
  end.

(** main.py:235-242 *)
Definition color (fl : Flags) : Z :=
  (if pds_tor fl || emergency_tor fl then 8388736     (* 0x800080 *)
   else if destructive_tstorm fl then 16753920        (* 0xffa500 *)
   else if emergency_flood fl then 255                (* 0x0000ff *)
   else 16711705)%Z.                                  (* 0xff0019 *)

Definition bytes (l : list nat) : string :=
  string_of_list_ascii (map ascii_of_nat l).

(** The pictographs that frame the titles and the two event details,
    byte for byte as they stand in main.py:247-257. *)
Definition pic_tor_emergency : string :=
  bytes [239; 163; 191; 195; 188; 195; 182; 194; 174].
Definition pic_pds_tor : string :=
  bytes [239; 163; 191; 195; 188; 195; 165; 226; 132; 162; 195; 148; 226; 136; 143; 195; 168].
Definition pic_tstorm : string :=
  bytes [239; 163; 191; 195; 188; 195; 165; 194; 169; 195; 148; 226; 136; 143; 195; 168].
Definition pic_flood : string :=
  bytes [239; 163; 191; 195; 188; 195; 165; 195; 164].
Definition pic_onset : string :=
  bytes [239; 163; 191; 195; 188; 195; 175; 195; 173].
Definition pic_expires : string :=
  bytes [226; 128; 154; 195; 168; 226; 137; 165].

(** main.py:245-253 *)
Definition embed_title (feature : AlertFeature) (fl : Flags) : string :=
  if emergency_tor fl then pic_tor_emergency ++ " TORNADO EMERGENCY " ++ pic_tor_emergency
  else if pds_tor fl then pic_pds_tor ++ " PDS TORNADO WARNING " ++ pic_pds_tor
  else if destructive_tstorm fl then
    pic_tstorm ++ " DESTRUCTIVE SVR. THUNDERSTORM WARNING " ++ pic_tstorm
  else if emergency_flood fl then pic_flood ++ " FLASH FLOOD EMERGENCY " ++ pic_flood
  else headline feature.

(** [discord.Embed], with the fields added to it. *)
Record Embed : Type := {
  title : string;
  embed_description : string;
  embed_color : Z;
  fields : list (string * string)
}.

(** main.py:256-257 *)
Definition make_embed (feature : AlertFeature) (fl : Flags) : Embed :=
  {| title := embed_title feature fl;
     embed_description := description feature;
     embed_color := color fl;
     fields := [("EVENT DETAILS",
                 pic_onset ++ " ONSET: " ++ onset feature ++ newline
                 ++ pic_expires ++ " EXPIRES: " ++ expires feature)] |}.

(** One turn of the loop at main.py:193-260: the embed handed to
    [interaction.followup.send]. *)
Definition feature_embed (feature : AlertFeature) : outcome Embed :=
  obind (special_flags feature) (fun fl => Returns (make_embed feature fl)).

End Main.

(** ** nws.py: the rate-gated client *)

Module Nws.

(** *** What the client talks to *)

(** A decoded JSON document, as [Response.json()] returns it. *)
#[local] Unset Elimination Schemes.
Inductive JSON : Type :=
| JNull
| JBool (b : bool)
| JInt (z : Z)
| JFloat (q : Q)
| JString (s : string)
| JList (l : list JSON)
| JDict (d : list (string * JSON)).
#[local] Set Elimination Schemes.

(** [type(v).__name__] *)
Definition type_name (v : JSON) : string :=
  match v with
  | JNull => "NoneType"
  | JBool _ => "bool"
  | JInt _ => "int"
  | JFloat _ => "float"
  | JString _ => "str"
  | JList _ => "list"
  | JDict _ => "dict"
  end.

Fixpoint lookup (d : list (string * JSON)) (key : string) : option JSON :=
  match d with
  | [] => None
  | (k, v) :: d' => if String.eqb k key then Some v else lookup d' key
  end.

(** [v[key]] with a string key; the texts are CPython's. *)
Definition getitem (v : JSON) (key : string) : outcome JSON :=
  match v with
  | JDict d =>
      match lookup d key with
      | Some x => Returns x
      | None => Raises (PyException "KeyError" ("'" ++ key ++ "'"))
      end
  | JList _ =>
      Raises (PyException "TypeError" "list indices must be integers or slices, not str")
  | JString _ =>
      Raises (PyException "TypeError" "string indices must be integers, not 'str'")
  | _ =>
      Raises (PyException "TypeError" ("'" ++ type_name v ++ "' object is not subscriptable"))
  end.

(** [re.search(r, v)] on a value that need not be a string *)
Definition search (r : regex) (v : JSON) : outcome (option string) :=
  match v with
  | JString s => Returns (re_search r s)
  | _ =>
      Raises (PyException "TypeError"
                ("expected string or bytes-like object, got '" ++ type_name v ++ "'"))
  end.

(** [r"([a-zA-Z]+\d+)"], nws.py:102; [isdecimal] tells the decimal
    digits, which are what [\d] matches in a [str] pattern, by their code
    points. *)
Definition county_re (isdecimal : N -> bool) : regex :=
  Seq (Plus letter) (PlusU isdecimal).

(** What [api_res.json()] does: it returns the document, or raises
    requests' JSONDecodeError with the given text. *)
Inductive decoded : Type :=
| Document (j : JSON)
| Undecodable (text : string).

Record Response : Type := {
  status_code : Z;
  json : decoded
}.

(** What [requests.get(url)] does: it returns a response, or raises one
    of requests' exceptions (ConnectionError, Timeout, ...). *)
Inductive http_outcome : Type :=
| Responded (r : Response)
| RequestFailed (class_name : string) (text : string).

(** The environment.  [time_time n] and [time_strftime n] are what the
    clock answers when it is read for the [n]-th time; [requests_get n url]
    is what happens to the [n]-th request; [fetchone city state_code] is
    the row (latitude, longitude, as they print) the locations table holds;
    [isdecimal] is the set of decimal digits of the Unicode database the
    interpreter carries, which grows from one version to the next. *)
Record Env : Type := {
  time_time : nat -> Q;
  time_strftime : nat -> string;
  requests_get : nat -> string -> http_outcome;
  fetchone : string -> string -> option (string * string);
  isdecimal : N -> bool
}.

(** *** The client object *)

Inductive task : Type := Pending | Cancelled.

(** The attributes of an [NWS] object.  [_stop_event] is whether the
    event is set; [timer_task] is [None] until [__check_time] creates the
    task.  The task itself, which would add 1 to [elapsed_seconds] per
    second while the event loop runs it, is not executed in this model:
    nothing the client decides reads [elapsed_seconds]. *)
Record NWS : Type := {
  elapsed_seconds : Z;
  _stop_event : bool;
  last_request_time : Q;
  request_cooldown : Q;
  timer_task : option task
}.

(** nws.py:23-28 *)
Definition init : NWS :=
  {| elapsed_seconds := 0;
     _stop_event := false;
     last_request_time := 0%Q;
     request_cooldown := 10%Q;
     timer_task := None |}.

(** The client together with its footprint outside: how often the clock
    has been read, the URLs requested so far (oldest first) and the lines
    of api_err_log.txt (oldest first). *)
Record Sys : Type := {
  self : NWS;
  ticks : nat;
  sent : list string;
  api_err_log : list string
}.

(** *** The monad of the methods: state and exceptions *)

Definition M (A : Type) : Type := Sys -> outcome A * Sys.

Definition ret {A} (a : A) : M A := fun s => (Returns a, s).

Definition raise {A} (e : exn) : M A := fun s => (Raises e, s).

Definition bind {A B} (m : M A) (f : A -> M B) : M B :=
  fun s => match m s with
           | (Returns a, s') => f a s'
           | (Raises e, s') => (Raises e, s')
           end.

Notation "x <- m ;; k" := (bind m (fun x => k))
  (at level 61, m at next level, right associativity).
Notation "m ;; k" := (bind m (fun _ => k))
  (at level 61, right associativity).

(** [try: body / except Exception as e: handler(str(e))].  Only the
    exceptions for which [is_Exception] holds are caught. *)
Definition try_except_Exception {A} (body : M A) (handler : string -> M A) : M A :=
  fun s => match body s with
           | (Raises (PyException _ text), s') => handler text s'
           | other => other
           end.

(** [try: body / finally: final] *)
Definition try_finally {A} (body : M A) (final : M unit) : M A :=
  fun s => match body s with
           | (r, s') => match final s' with
                        | (Returns _, s'') => (r, s'')
                        | (Raises e, s'') => (Raises e, s'')
                        end
           end.

Definition lift {A} (x : outcome A) : M A := fun s => (x, s).

Definition get_self : M NWS := fun s => (Returns (self s), s).

Definition set_self (o : NWS) : M unit :=
  fun s => (Returns tt,
            {| self := o; ticks := ticks s; sent := sent s; api_err_log := api_err_log s |}).

(** [x < y] on rationals *)
Definition Qltb (x y : Q) : bool := (Qnum x * QDen y <? Qnum y * QDen x)%Z.

Section Client.

Variable env : Env.

(** [time.time()] *)
Definition time : M Q :=
  fun s => (Returns (time_time env (ticks s)),
            {| self := self s; ticks := S (ticks s); sent := sent s;
               api_err_log := api_err_log s |}).

(** [time.strftime("%Y-%m-%d %H:%M:%S")] *)
Definition strftime : M string :=
  fun s => (Returns (time_strftime env (ticks s)),
            {| self := self s; ticks := S (ticks s); sent := sent s;
               api_err_log := api_err_log s |}).

(** [requests.get(url)] *)
Definition get (url : string) : M Response :=
  fun s =>
    let s' := {| self := self s; ticks := ticks s; sent := (sent s ++ [url])%list;
                 api_err_log := api_err_log s |} in
    match requests_get env (List.length (sent s)) url with
    | Responded r => (Returns r, s')
    | RequestFailed cls text => (Raises (PyException cls text), s')
    end.

(** [with open("api_err_log.txt", 'a') as f: f.write(line)] *)
Definition write_log (line : string) : M unit :=
  fun s => (Returns tt,
            {| self := self s; ticks := ticks s; sent := sent s;
               api_err_log := (api_err_log s ++ [line])%list |}).

(** nws.py:43-45 *)
Definition stop_timer : M unit :=
  o <- get_self ;;
  set_self {| elapsed_seconds := elapsed_seconds o; _stop_event := true;
              last_request_time := last_request_time o;
              request_cooldown := request_cooldown o;
              timer_task := timer_task o |}.

(** [if self.timer_task: self.timer_task.cancel()] *)
Definition cancel_timer_task : M unit :=
  o <- get_self ;;
  match timer_task o with
  | Some _ =>
      set_self {| elapsed_seconds := elapsed_seconds o; _stop_event := _stop_event o;
                  last_request_time := last_request_time o;
                  request_cooldown := request_cooldown o;
                  timer_task := Some Cancelled |}
  | None => ret tt
  end.

(** [self.last_request_time = t] *)
Definition set_last_request_time (t : Q) : M unit :=
  o <- get_self ;;
  set_self {| elapsed_seconds := elapsed_seconds o; _stop_event := _stop_event o;
              last_request_time := t;
              request_cooldown := request_cooldown o;
              timer_task := timer_task o |}.

(** nws.py:47-60 *)
Definition check_time : M unit :=
  current_time <- time ;;
  o <- get_self ;;
  let time_since_last_req := (current_time - last_request_time o)%Q in
  if Qltb time_since_last_req (request_cooldown o) then
    let wait_time := (request_cooldown o - time_since_last_req)%Q in
    raise (RateLimitError wait_time)
  else
    set_self {| elapsed_seconds := 0; _stop_event := false;
                last_request_time := last_request_time o;
                request_cooldown := request_cooldown o;
                timer_task := Some Pending |}.

(** [api_res.json()] *)
Definition decode (api_res : Response) : M JSON :=
  match json api_res with
  | Document j => ret j
  | Undecodable text => raise (PyException "JSONDecodeError" text)
  end.

(** The handler shared by the three requests, nws.py:109-113, 140-144
    and 159-163. *)
Definition log_and_raise {A} (str_e : string) : M A :=
  stamp <- strftime ;;
  write_log (stamp ++ " - " ++ str_e ++ newline) ;;
  raise (UnknownError
           "Could not parse NWS API response. Please contact dev to check error logs").

(** The [finally] clause shared by the three requests. *)
Definition stop_and_cancel : M unit :=
  stop_timer ;;
  cancel_timer_task.

(** nws.py:75-117 *)
Definition countyid_from_city (city_name state_code : string) : M string :=
  check_time ;;
  match fetchone env city_name state_code with
  | None =>
      stop_timer ;;
      raise (UnknownError
               (city_name ++ ", " ++ state_code ++ " not found in geolocation database"))
  | Some (row0, row1) =>
      try_finally
        (try_except_Exception
           (api_res <- get ("https://api.weather.gov/points/" ++ row0 ++ "," ++ row1) ;;
            if (status_code api_res =? 200)%Z then
              now <- time ;;
              set_last_request_time now ;;
              api_res <- decode api_res ;;
              properties <- lift (getitem api_res "properties") ;;
              county <- lift (getitem properties "county") ;;
              county_id <- lift (search (county_re (isdecimal env)) county) ;;
              stop_timer ;;
              match county_id with
              | None => raise (UnknownError "County ID not found in API response.")
              | Some group0 => ret group0
              end
            else raise (APIError (status_code api_res)))
           log_and_raise)
        stop_and_cancel
  end.

(** nws.py:131-148 and 150-167: the two requests of
    [check_active_alerts] differ in the URL only. *)
Definition fetch_alerts (url : string) : M JSON :=
  try_finally
    (try_except_Exception
       (api_res <- get url ;;
        if (status_code api_res =? 200)%Z then
          now <- time ;;
          set_last_request_time now ;;
          api_res <- decode api_res ;;
          stop_timer ;;
          ret api_res
        else raise (APIError (status_code api_res)))
       log_and_raise)
    stop_and_cancel.

(** [f"{v}"] for an argument that may have been left out *)
Definition format (v : option string) : string :=
  match v with
  | Some x => x
  | None => "None"
  end.

Definition is_None {A} (v : option A) : bool :=
  match v with
  | None => true
  | Some _ => false
  end.

(** nws.py:119-167.  An argument left out is [None]. *)
Definition check_active_alerts (state_code county_code : option string) : M JSON :=
  if is_None state_code && is_None county_code then
    raise (UnknownError
             "You must provide an argument in the form of a state code or county code")
  else if negb (is_None state_code) && negb (is_None county_code) then
    raise (UnknownError "You may only provide one argument")
  else
    check_time ;;
    if negb (is_None state_code) then
      fetch_alerts ("https://api.weather.gov/alerts/active/area/" ++ format state_code)
    else
      fetch_alerts ("https://api.weather.gov/alerts/active/zone/" ++ format county_code).

End Client.

End Nws.

(** ** main.py: the commands that call the client *)

Module Bot.

Import Nws.
Import Main.

(** What a command does to the interaction it answers; the calls of
    discord.py are taken to succeed. *)
Inductive reply : Type :=
| Defer                                              (* interaction.response.defer() *)
| SendMessage (content : string) (ephemeral : bool)  (* interaction.response.send_message *)
| FollowupSend (content : string) (ephemeral : bool). (* interaction.followup.send *)

(** What the commands read besides the client's environment: the first
    column of the row [cursor.fetchone()] gives for the two SELECT
    statements of main.py ([None] when there is no row, [Some None] when
    the column is NULL), and [int(os.getenv("DEVID_1"))]. *)
Record BotEnv : Type := {
  nws_env : Env;
  select_state_code : string -> option (option string);
  select_nws_county_id : string -> option (option string);
  devid_1 : outcome Z
}.

(** The [Bot] object with its footprint: the client, the replies sent
    (oldest first), the statements that change the bot database with
    their parameters (oldest first) and the number of commits. *)
Record Bot : Type := {
  nws : Sys;
  replies : list reply;
  executed : list (string * list string);
  commits : nat
}.

Definition B (A : Type) : Type := Bot -> outcome A * Bot.

Definition pure {A} (a : A) : B A := fun b => (Returns a, b).

Definition throw {A} (e : exn) : B A := fun b => (Raises e, b).

Definition and_then {A R} (m : B A) (f : A -> B R) : B R :=
  fun b => match m b with
           | (Returns a, b') => f a b'
           | (Raises e, b') => (Raises e, b')
           end.

Notation "x <~ m ;; k" := (and_then m (fun x => k))
  (at level 61, m at next level, right associativity).
Notation "m ;;; k" := (and_then m (fun _ => k))
  (at level 61, right associativity).

(** A method of [self.NWS] *)
Definition client {A} (m : M A) : B A :=
  fun b => match m (nws b) with
           | (r, s') => (r, {| nws := s'; replies := replies b;
                               executed := executed b; commits := commits b |})
           end.

Definition respond (r : reply) : B unit :=
  fun b => (Returns tt, {| nws := nws b; replies := (replies b ++ [r])%list;
                           executed := executed b; commits := commits b |}).

(** [cursor.execute(query, params)] for a statement that writes *)
Definition execute (query : string) (params : list string) : B unit :=
  fun b => (Returns tt, {| nws := nws b; replies := replies b;
                           executed := (executed b ++ [(query, params)])%list;
                           commits := commits b |}).

(** [self.bot_db.commit()] *)
Definition commit : B unit :=
  fun b => (Returns tt, {| nws := nws b; replies := replies b;
                           executed := executed b; commits := S (commits b) |}).

(** [except (RateLimitError, UnknownError, APIError)] *)
Definition is_client_error (e : exn) : bool :=
  match e with
  | RateLimitError _ | UnknownError _ | APIError _ => true
  | PyException _ _ => false
  end.

(** [try: x = body / except (RateLimitError, UnknownError, APIError): handler
    / else: orelse(x)] *)
Definition try_except_else {A R} (body : B A) (handler : B R) (orelse : A -> B R) : B R :=
  fun b => match body b with
           | (Returns a, b') => orelse a b'
           | (Raises e, b') => if is_client_error e then handler b' else (Raises e, b')
           end.

(** [x is None] and the truth value of an optional string *)
Definition truthy_str (v : option string) : bool :=
  match v with
  | Some "" | None => false
  | Some _ => true
  end.

(** The truth value of a decoded document *)
Definition truthy (v : JSON) : bool :=
  match v with
  | JNull => false
  | JBool b => b
  | JInt z => negb (z =? 0)%Z
  | JFloat q => negb (Qeq_bool q 0)
  | JString s => negb (String.eqb s "")
  | JList l => match l with [] => false | _ => true end
  | JDict d => match d with [] => false | _ => true end
  end.

(** [key in v] for a string [key]; the texts are CPython's. *)
Definition has (key : string) (v : JSON) : outcome bool :=
  match v with
  | JDict d => Returns (match lookup d key with Some _ => true | None => false end)
  | JList l => Returns (existsb (fun x => match x with
                                          | JString s => String.eqb key s
                                          | _ => false
                                          end) l)
  | JString s => Returns (contains key s)
  | _ => Raises (PyException "TypeError"
                   ("argument of type '" ++ type_name v ++ "' is not iterable"))
  end.

(** [len(v) == 0] *)
Definition len_is_0 (v : JSON) : outcome bool :=
  match v with
  | JList l => Returns (match l with [] => true | _ => false end)
  | JDict d => Returns (match d with [] => true | _ => false end)
  | JString s => Returns (String.eqb s "")
  | _ => Raises (PyException "TypeError"
                   ("object of type '" ++ type_name v ++ "' has no len()"))
  end.

(** *** The analysis of main.py:195-232 on the decoded document

    [Main] has the analysis for an alert whose texts are strings and whose
    parameters are lists of strings.  Here it is as the interpreter runs
    it on whatever the document holds: a value of another type raises at
    the first operation it does not have. *)

(** [v.lower()]; of the values of a document only [str] has the method. *)
Definition lower_of (v : JSON) : outcome string :=
  match v with
  | JString s => Returns (lower s)
  | _ => Raises (PyException "AttributeError"
                   ("'" ++ type_name v ++ "' object has no attribute 'lower'"))
  end.

(** [v.get(key, default)]; only [dict] has the method. *)
Definition get_of (v : JSON) (key : string) (default : JSON) : outcome JSON :=
  match v with
  | JDict d => Returns (dict_get d key default)
  | _ => Raises (PyException "AttributeError"
                   ("'" ++ type_name v ++ "' object has no attribute 'get'"))
  end.

(** [v[0]]; the keys of a decoded dict are strings, so [0] is none of
    them. *)
Definition item0_of (v : JSON) : outcome JSON :=
  match v with
  | JList l => item0 l
  | JString s =>
      if String.eqb s "" then Raises (PyException "IndexError" "string index out of range")
      else Returns (JString (first_char s))
  | JDict _ => Raises (PyException "KeyError" "0")
  | _ => Raises (PyException "TypeError" ("'" ++ type_name v ++ "' object is not subscriptable"))
  end.

(** [feature["properties"][key]] *)
Definition property (feature : JSON) (key : string) : outcome JSON :=
  obind (getitem feature "properties") (fun properties => getitem properties key).

(** [feature["properties"]["parameters"].get(key, default)[0]] *)
Definition parameter0 (feature : JSON) (key : string) (default : JSON) : outcome JSON :=
  obind (property feature "parameters") (fun parameters =>
  obind (get_of parameters key default) item0_of).

(** main.py:213-220, the tornado branch *)
Definition json_tornado_details (feature description : JSON) : outcome Flags :=
  obind (lower_of description) (fun lowered =>
  if contains "particularly dangerous situation" lowered then
    Returns {| pds_tor := true; emergency_tor := false;
               destructive_tstorm := false; emergency_flood := false |}
  else
    obind (parameter0 feature "NWSheadline" (JList [JString ""])) (fun v =>
    obind (lower_of v) (fun nws_headline =>
    let severity := re_search severity_re (lower nws_headline) in
    match severity with
    | Some sev =>
        if contains "emergency" (lower sev) then
          Returns {| pds_tor := false; emergency_tor := true;
                     destructive_tstorm := false; emergency_flood := false |}
        else Returns no_flags
    | None => Returns no_flags
    end))).

(** main.py:223-226, the severe thunderstorm branch *)
Definition json_tstorm_details (feature : JSON) : outcome Flags :=
  obind (parameter0 feature "damageThreat" (JList [JString "Unknown"])) (fun damage_threat =>
  obind (lower_of damage_threat) (fun lowered =>
  if String.eqb lowered "destructive" then
    Returns {| pds_tor := false; emergency_tor := false;
               destructive_tstorm := true; emergency_flood := false |}
  else Returns no_flags)).

(** main.py:229-232, the flash flood branch; [or] looks at the description
    only when the NWSheadline does not have the words. *)
Definition json_flood_details (feature description : JSON) : outcome Flags :=
  obind (parameter0 feature "NWSheadline" (JList [JString ""])) (fun v =>
  obind (lower_of v) (fun nws_headline =>
  if contains "flash flood emergency" nws_headline then
    Returns {| pds_tor := false; emergency_tor := false;
               destructive_tstorm := false; emergency_flood := true |}
  else
    obind (has "flash flood emergency" description) (fun found =>
    if found then
      Returns {| pds_tor := false; emergency_tor := false;
                 destructive_tstorm := false; emergency_flood := true |}
    else Returns no_flags))).

(** main.py:195-232 for one element [feature] of [alerts["features"]]: the
    four reads, then the flags. *)
Definition json_special_flags (feature : JSON) : outcome Flags :=
  obind (property feature "onset") (fun onset =>
  obind (property feature "expires") (fun expires =>
  obind (property feature "headline") (fun headline =>
  obind (property feature "description") (fun description =>
  obind (lower_of headline) (fun lowered =>
  let alert_type := re_search alert_type_re lowered in
  match alert_type with
  | None => Returns no_flags
  | Some alert_type0 =>
      if contains "tornado" (lower alert_type0) then
        json_tornado_details feature description
      else if contains "severe thunderstorm" (lower alert_type0) then
        json_tstorm_details feature
      else if contains "flash flood" (lower alert_type0) then
        json_flood_details feature description
      else Returns no_flags
  end))))).

Definition insert_county : string :=
  "INSERT IGNORE INTO server_counties (nws_county_id, city_name) VALUES (%s, %s)".

Definition city_added : string := "City added to bot database".

(** How far [slash_getwarnings] gets before its loop: it has answered and
    returned, or it goes on to send one embed for each element of
    [alerts["features"]]. *)
Inductive progress : Type :=
| Answered
| Render (features : JSON).

Section Commands.

Variable env : BotEnv.

(** main.py:45-52 *)
Definition parse_state_name (state_name : string) : option string :=
  match select_state_code env state_name with
  | Some res0 => res0
  | None => None
  end.

(** main.py:113-135 *)
Definition slash_addcity (city state_name : string) : B unit :=
  respond Defer ;;;
  let state_code := parse_state_name state_name in
  match state_code with
  | Some state_code =>
      try_except_else
        (client (countyid_from_city (nws_env env) city state_code))
        (respond (FollowupSend city_added false))
        (fun county_code =>
           execute insert_county [county_code; city] ;;;
           commit ;;;
           respond (FollowupSend city_added false))
  | None => respond (FollowupSend city_added false)
  end.

(** main.py:166-185: [alerts], or the answer that ends the command. *)
Definition fetch_alerts_for (city state county_code : option string) : B (option JSON) :=
  match city with
  | Some city =>
      match select_nws_county_id env city with
      | Some res0 =>
          alerts <~ client (check_active_alerts (nws_env env) None res0) ;;
          pure (Some alerts)
      | None =>
          respond (FollowupSend "City not found in database" true) ;;;
          pure None
      end
  | None =>
      match state with
      | Some state =>
          let state_code := parse_state_name state in
          if truthy_str state_code then
            alerts <~ client (check_active_alerts (nws_env env) state_code None) ;;
            pure (Some alerts)
          else
            respond (FollowupSend "State not found in database" true) ;;;
            pure None
      | None =>
          match county_code with
          | Some _ =>
              alerts <~ client (check_active_alerts (nws_env env) None county_code) ;;
              pure (Some alerts)
          | None => pure (Some JNull)
          end
      end
  end.

(** main.py:188: [not alerts or "features" not in alerts or
    len(alerts["features"]) == 0] *)
Definition no_warnings (alerts : JSON) : outcome bool :=
  if negb (truthy alerts) then Returns true
  else
    obind (has "features" alerts) (fun present =>
    if negb present then Returns true
    else obind (getitem alerts "features") len_is_0).

(** main.py:151-193, up to the loop over [alerts["features"]];
    [user_id] is [interaction.user.id]. *)
Definition slash_getwarnings (user_id : Z) (city state county_code : option string)
  : B progress :=
  if is_None city && is_None state && is_None county_code then
    respond (SendMessage "You must provide at least 1 argument" true) ;;;
    pure Answered
  else
    dev <~ (fun b => (devid_1 env, b)) ;;
    if negb (user_id =? dev)%Z then
      respond (SendMessage "You are not authorized to run this command." true) ;;;
      pure Answered
    else
      respond Defer ;;;
      fetched <~ fetch_alerts_for city state county_code ;;
      match fetched with
      | None => pure Answered
      | Some alerts =>
          none <~ (fun b => (no_warnings alerts, b)) ;;
          if none then
            respond (FollowupSend "No active warnings found." true) ;;;
            pure Answered
          else
            features <~ (fun b => (getitem alerts "features", b)) ;;
            pure (Render features)
      end.

End Commands.

End Bot.

(** ** Vocabulary of the properties *)

Import Nws.
Import Main.
Import Bot.

(** The state once the clock has been read. *)
Definition ticked (s : Sys) : Sys :=
  {| self := self s; ticks := S (ticks s); sent := sent s; api_err_log := api_err_log s |}.

(** The state once the gate has let a call through. *)
Definition let_through (s : Sys) : Sys :=
  {| self := {| elapsed_seconds := 0; _stop_event := false;
                last_request_time := last_request_time (self s);
                request_cooldown := request_cooldown (self s);
                timer_task := Some Pending |};
     ticks := S (ticks s); sent := sent s; api_err_log := api_err_log s |}.

(** The state once the [finally] clause has run. *)
Definition stopped (s : Sys) : Sys :=
  {| self := {| elapsed_seconds := elapsed_seconds (self s); _stop_event := true;
                last_request_time := last_request_time (self s);
                request_cooldown := request_cooldown (self s);
                timer_task := match timer_task (self s) with
                              | Some _ => Some Cancelled
                              | None => None
                              end |};
     ticks := ticks s; sent := sent s; api_err_log := api_err_log s |}.

(** The time the gate computes between the last recorded request and now. *)
Definition elapsed (env : Env) (s : Sys) : Q :=
  (time_time env (ticks s) - last_request_time (self s))%Q.

(** The URL of the point lookup, nws.py:98. *)
Definition points_url (row0 row1 : string) : string :=
  "https://api.weather.gov/points/" ++ row0 ++ "," ++ row1.

(** The URLs of the two alert requests, nws.py:132 and 151. *)
Definition area_url (state_code : string) : string :=
  "https://api.weather.gov/alerts/active/area/" ++ state_code.

Definition zone_url (county_code : string) : string :=
  "https://api.weather.gov/alerts/active/zone/" ++ county_code.

(** The message of the handler at nws.py:113, 144 and 163. *)
Definition could_not_parse : string :=
  "Could not parse NWS API response. Please contact dev to check error logs".

(** Whether a call of [countyid_from_city] gets as far as a response with
    status 200: the gate lets it through, the city is in the locations
    table and the point lookup answers 200. *)
Definition answered_200 (env : Env) (s : Sys) (city_name state_code : string) : bool :=
  negb (Qltb (elapsed env s) (request_cooldown (self s)))
  && match fetchone env city_name state_code with
     | Some (row0, row1) =>
         match requests_get env (List.length (sent s)) (points_url row0 row1) with
         | Responded r => (status_code r =? 200)%Z
         | RequestFailed _ _ => false
         end
     | None => false
     end.

(** How many of the four flags are set. *)
Definition flags_set (fl : Flags) : nat :=
  (if pds_tor fl then 1 else 0) + (if emergency_tor fl then 1 else 0)
  + (if destructive_tstorm fl then 1 else 0) + (if emergency_flood fl then 1 else 0).

(** The title shown by an embed, if there is one. *)
Definition shown_title (x : outcome Embed) : outcome string :=
  obind x (fun e => Returns (title e)).

(** *** Sample inputs *)

(** The decimal digits of Unicode 15.0, the database of CPython 3.12:
    each entry is the digit zero of a run of ten. *)
Definition decimal_zeros : list N :=
  [48; 1632; 1776; 1984; 2406; 2534; 2662; 2790; 2918; 3046; 3174; 3302; 3430;
   3558; 3664; 3792; 3872; 4160; 4240; 6112; 6160; 6470; 6608; 6784; 6800;
   6992; 7088; 7232; 7248; 42528; 43216; 43264; 43472; 43504; 43600; 44016;
   65296; 66720; 68912; 69734; 69872; 69942; 70096; 70384; 70736; 70864;
   71248; 71360; 71472; 71904; 72016; 72784; 73040; 73120; 73552; 92768;
   92864; 93008; 120782; 120792; 120802; 120812; 120822; 123200; 123632;
   124144; 125264; 130032]%N.

Definition unicode_decimal (cp : N) : bool :=
  existsb (fun zero => (zero <=? cp)%N && (cp <? zero + 10)%N) decimal_zeros.

Definition sample_env (r : http_outcome) : Env :=
  {| time_time := fun n => inject_Z (1700000000 + Z.of_nat n);
     time_strftime := fun _ => "2023-11-14 22:13:20";
     requests_get := fun _ _ => r;
     fetchone := fun city_name state_code =>
                   if String.eqb city_name "Moore" && String.eqb state_code "OK"
                   then Some ("35.3395", "-97.4867") else None;
     isdecimal := unicode_decimal |}.

Definition fresh : Sys :=
  {| self := init; ticks := 0; sent := []; api_err_log := [] |}.

(** A client whose last request was recorded [ago] seconds before the
    first reading of [sample_env]'s clock. *)
Definition recent (ago : Z) : Sys :=
  {| self := {| elapsed_seconds := 3; _stop_event := true;
                last_request_time := inject_Z (1700000000 - ago);
                request_cooldown := 10%Q;
                timer_task := Some Cancelled |};
     ticks := 0; sent := []; api_err_log := [] |}.

Definition ok (j : JSON) : http_outcome :=
  Responded {| status_code := 200; json := Document j |}.

Definition status (code : Z) : http_outcome :=
  Responded {| status_code := code; json := Undecodable "Expecting value: line 1 column 1 (char 0)" |}.

Definition point_document (county : string) : JSON :=
  JDict [("properties", JDict [("county", JString county)])].

Definition alert (h d : string) (p : list (string * list string)) : AlertFeature :=
  {| onset := "2023-11-14T16:13:00-06:00"; expires := "2023-11-14T17:00:00-06:00";
     headline := h; description := d; parameters := p |}.

Definition sample_tstorm : AlertFeature :=
  alert "Severe Thunderstorm Warning issued November 14 at 4:13PM CST by NWS Norman OK"
        "At 413 PM CST, a severe thunderstorm was located near Moore."
        [("damageThreat", ["Destructive"])].

Definition sample_flood : AlertFeature :=
  alert "Flash Flood Warning issued November 14 at 4:13PM CST by NWS Norman OK"
        "This is a FLASH FLOOD EMERGENCY for Moore."
        [("NWSheadline", ["FLASH FLOOD EMERGENCY FOR MOORE"])].

Definition sample_tor : AlertFeature :=
  alert "Tornado Warning issued November 14 at 4:13PM CST by NWS Norman OK"
        "At 413 PM CST, a confirmed large tornado was located over Moore."
        [("NWSheadline", ["TORNADO EMERGENCY FOR MOORE"])].

(** A headline of the kind the weather service sends when a warning is
    raised to an emergency. *)
Definition warning_then_emergency : string :=
  "A TORNADO WARNING REMAINS IN EFFECT UNTIL 445 PM CST FOR MOORE... TORNADO EMERGENCY FOR MOORE".

Definition sample_tor_upgraded : AlertFeature :=
  alert "Tornado Warning issued November 14 at 4:13PM CST by NWS Norman OK"
        "At 413 PM CST, a confirmed large tornado was located over Moore."
        [("NWSheadline", [warning_then_emergency])].

Definition only (pds emergency destructive flood : bool) : Flags :=
  {| pds_tor := pds; emergency_tor := emergency;
     destructive_tstorm := destructive; emergency_flood := flood |}.

(** *** Vocabulary of the further properties *)

(** Every character of [s] is in the class. *)
Fixpoint all_chars (cls : ascii -> bool) (s : string) : bool :=
  match s with
  | "" => true
  | String c s' => cls c && all_chars cls s'
  end.

(** [s] is one or more characters of the class, one after the other. *)
Inductive run_of (cls : N -> bool) : string -> Prop :=
| run_one (c : string) (cp : N) :
    next_char c = Some (cp, "") -> cls cp = true -> run_of cls c
| run_more (c : string) (cp : N) (s : string) :
    next_char c = Some (cp, "") -> cls cp = true -> run_of cls s -> run_of cls (c ++ s).

Fixpoint last_char (s : string) : option ascii :=
  match s with
  | "" => None
  | String c "" => Some c
  | String _ s' => last_char s'
  end.

(** The line the handler writes, nws.py:111, 142 and 161. *)
Definition log_line (stamp text : string) : string :=
  stamp ++ " - " ++ text ++ newline.

(** The message of nws.py:94. *)
Definition not_found_message (city_name state_code : string) : string :=
  city_name ++ ", " ++ state_code ++ " not found in geolocation database".

(** The URL [check_active_alerts] asks for, when its arguments are legal. *)
Definition alerts_url (state_code county_code : option string) : option string :=
  match state_code, county_code with
  | Some a, None => Some (area_url a)
  | None, Some c => Some (zone_url c)
  | _, _ => None
  end.

(** Whether a call of [check_active_alerts] gets as far as a response with
    status 200. *)
Definition alerts_answered_200 (env : Env) (s : Sys) (state_code county_code : option string)
  : bool :=
  match alerts_url state_code county_code with
  | Some url =>
      negb (Qltb (elapsed env s) (request_cooldown (self s)))
      && match requests_get env (List.length (sent s)) url with
         | Responded r => (status_code r =? 200)%Z
         | RequestFailed _ _ => false
         end
  | None => false
  end.

(** The bot once it has sent the replies [rs] and done nothing else. *)
Definition replied (b : Bot) (rs : list reply) : Bot :=
  {| nws := nws b; replies := (replies b ++ rs)%list;
     executed := executed b; commits := commits b |}.

(** The arguments [state_code] and [county_code] with which
    [slash_getwarnings] calls [check_active_alerts], at main.py:173, 180
    or 185, when it gets as far as one of the three calls. *)
Definition alerts_call (env : BotEnv) (city state county_code : option string)
  : option (option string * option string) :=
  match city with
  | Some city =>
      match select_nws_county_id env city with
      | Some res0 => Some (None, res0)
      | None => None
      end
  | None =>
      match state with
      | Some state =>
          if truthy_str (parse_state_name env state)
          then Some (parse_state_name env state, None)
          else None
      | None =>
          match county_code with
          | Some _ => Some (None, county_code)
          | None => None
          end
      end
  end.


(** The element of [alerts["features"]] that holds the alert [f]. *)
Definition to_json (f : AlertFeature) : JSON :=
  JDict [("properties",
          JDict [("onset", JString (onset f)); ("expires", JString (expires f));
                 ("headline", JString (headline f));
                 ("description", JString (description f));
                 ("parameters",
                  JDict (map (fun kv => (fst kv, JList (map JString (snd kv))))
                             (parameters f)))])].

(** The user of the interaction is the one of DEVID_1. *)
Definition authorized (env : BotEnv) (user_id : Z) : Prop :=
  devid_1 env = Returns user_id.

(** *** Further sample inputs *)

(** A clock that is read once a minute. *)
Definition slow_env (r : http_outcome) : Env :=
  {| time_time := fun n => inject_Z (1700000000 + 60 * Z.of_nat n);
     time_strftime := fun _ => "2023-11-14 22:13:20";
     requests_get := fun _ _ => r;
     fetchone := fetchone (sample_env r);
     isdecimal := unicode_decimal |}.

Definition county_url : string := "https://api.weather.gov/zones/county/OKC027".

Definition alerts_document (features : list JSON) : JSON :=
  JDict [("type", JString "FeatureCollection"); ("features", JList features)].

Definition sample_bot_env (r : http_outcome) : BotEnv :=
  {| nws_env := sample_env r;
     select_state_code := fun state_name =>
                            if String.eqb state_name "Oklahoma" then Some (Some "OK") else None;
     select_nws_county_id := fun city =>
                               if String.eqb city "Moore" then Some (Some "OKC027") else None;
     devid_1 := Returns 42%Z |}.

Definition new_bot : Bot :=
  {| nws := fresh; replies := []; executed := []; commits := 0 |}.

(** ** Properties *)

(** *** Running the methods step by step *)

Lemma Qltb_true (x y : Q) : Qltb x y = true <-> (x < y)%Q.
Proof. unfold Qltb, Qlt. apply Z.ltb_lt. Qed.

Lemma Qltb_false (x y : Q) : Qltb x y = false <-> (y <= x)%Q.
Proof. unfold Qltb, Qle. apply Z.ltb_ge. Qed.

Lemma bind_returns {A B} (m : M A) (f : A -> M B) (s s' : Sys) (a : A) :
  m s = (Returns a, s') -> bind m f s = f a s'.
Proof. intros H. unfold bind. rewrite H. reflexivity. Qed.

Lemma bind_raises {A B} (m : M A) (f : A -> M B) (s s' : Sys) (e : exn) :
  m s = (Raises e, s') -> bind m f s = (Raises e, s').
Proof. intros H. unfold bind. rewrite H. reflexivity. Qed.

(** An [except Exception] clause lets the three classes of nws.py through. *)
Lemma try_except_passes {A} (body : M A) (handler : string -> M A) (s s' : Sys) (e : exn) :
  is_Exception e = false ->
  body s = (Raises e, s') ->
  try_except_Exception body handler s = (Raises e, s').
Proof.
  intros He H. unfold try_except_Exception. rewrite H.
  destruct e; simpl in He; try discriminate; reflexivity.
Qed.

Lemma check_time_refuses (env : Env) (s : Sys) :
  (elapsed env s < request_cooldown (self s))%Q ->
  check_time env s
  = (Raises (RateLimitError (request_cooldown (self s) - elapsed env s)), ticked s).
Proof.
  intros H. apply Qltb_true in H. unfold elapsed in *.
  unfold check_time, bind, time, get_self. cbn. rewrite H. reflexivity.
Qed.

Lemma check_time_permits (env : Env) (s : Sys) :
  (request_cooldown (self s) <= elapsed env s)%Q ->
  check_time env s = (Returns tt, let_through s).
Proof.
  intros H. apply Qltb_false in H. unfold elapsed in *.
  unfold check_time, bind, time, get_self. cbn. rewrite H. reflexivity.
Qed.

Lemma stop_and_cancel_runs (s : Sys) :
  stop_and_cancel s = (Returns tt, stopped s).
Proof.
  unfold stop_and_cancel, stop_timer, cancel_timer_task, bind, get_self, set_self, ret, stopped.
  cbn. destruct (timer_task (self s)); reflexivity.
Qed.

(** The [finally] clause of the three requests never replaces the outcome
    of the body. *)
Lemma try_finally_stop {A} (body : M A) (s : Sys) :
  try_finally body stop_and_cancel s = (fst (body s), stopped (snd (body s))).
Proof.
  unfold try_finally. destruct (body s) as [r s']. rewrite stop_and_cancel_runs. reflexivity.
Qed.

Ltac unfold_methods :=
  unfold fetch_alerts, try_except_Exception, log_and_raise, stop_timer,
    set_last_request_time, decode, get, time, strftime, write_log,
    bind, ret, raise, lift, get_self, set_self.

(** What indexing and searching a decoded document raise is caught by
    [except Exception]. *)
Lemma getitem_raises (v : JSON) (key : string) (e : exn) :
  getitem v key = Raises e -> exists cls text, e = PyException cls text.
Proof.
  unfold getitem. destruct v; try (intros [= <-]; eauto).
  destruct (lookup d key); intros [= <-]; eauto.
Qed.

Lemma search_raises (r : regex) (v : JSON) (e : exn) :
  search r v = Raises e -> exists cls text, e = PyException cls text.
Proof. unfold search. destruct v; intros [= <-]; eauto. Qed.

(** Follow a request through every answer the environment can give. *)
Ltac split_cases :=
  repeat (cbn -[getitem search append];
          match goal with
          | |- context [match requests_get ?e ?n ?u with _ => _ end] =>
              destruct (requests_get e n u)
          | |- context [if (?a =? ?b)%Z then _ else _] => destruct (a =? b)%Z
          | |- context [match json ?r with _ => _ end] => destruct (json r)
          | |- context [match getitem ?j ?k with _ => _ end] =>
              let H := fresh in
              destruct (getitem j k) eqn:H;
              [ | apply getitem_raises in H; destruct H as (? & ? & ->) ]
          | |- context [match search ?r ?c with _ => _ end] =>
              let H := fresh in
              destruct (search r c) as [[?|]|?] eqn:H;
              [ | | apply search_raises in H; destruct H as (? & ? & ->) ]
          end).

(** Past the gate, [countyid_from_city] is the lookup and the request. *)
Ltac pass_gate Hgate :=
  unfold countyid_from_city, check_active_alerts;
  cbn [is_None andb negb format];
  rewrite (bind_returns _ _ _ _ _ (check_time_permits _ _ Hgate)).

(** *** The rate gate *)

(** C1. With [e] the time elapsed since the last recorded request and [C]
    the cooldown: when [e < C] the gate raises [RateLimitError] with the
    wait [C - e] and leaves the client object as it was (so
    [last_request_time] too); when [C <= e] it returns, and the call
    goes on. *)
Theorem check_time_gate (env : Env) (s : Sys) :
  let C := request_cooldown (self s) in
  let e := elapsed env s in
  ((e < C)%Q ->
   fst (check_time env s) = Raises (RateLimitError (C - e))
   /\ self (snd (check_time env s)) = self s)
  /\ ((C <= e)%Q ->
      fst (check_time env s) = Returns tt
      /\ last_request_time (self (snd (check_time env s))) = last_request_time (self s)).
Proof.
  cbv zeta. split; intros H.
  - rewrite (check_time_refuses env s H). split; reflexivity.
  - rewrite (check_time_permits env s H). split; reflexivity.
Qed.

Lemma check_time_gate_witness :
  fst (check_time (sample_env (ok JNull)) (recent 3))
  = Raises (RateLimitError (10 - elapsed (sample_env (ok JNull)) (recent 3)))
  /\ fst (check_time (sample_env (ok JNull)) (recent 10)) = Returns tt.
Proof.
  split.
  - apply (proj1 (check_time_gate (sample_env (ok JNull)) (recent 3))).
    vm_compute. reflexivity.
  - apply (proj2 (check_time_gate (sample_env (ok JNull)) (recent 10))).
    vm_compute. discriminate.
Defined.

(** C10. A new client has [last_request_time = 0]; whenever the clock
    reads at least the cooldown, its first call passes the gate, and
    neither method fails with [RateLimitError]. *)
Theorem first_call_passes (env : Env) (s : Sys) :
  self s = init ->
  (request_cooldown init <= time_time env (ticks s))%Q ->
  last_request_time (self s) = 0%Q
  /\ fst (check_time env s) = Returns tt
  /\ (forall city_name state_code wait_time,
        fst (countyid_from_city env city_name state_code s)
        <> Raises (RateLimitError wait_time))
  /\ (forall state_code county_code wait_time,
        fst (check_active_alerts env state_code county_code s)
        <> Raises (RateLimitError wait_time)).
Proof.
  intros Hinit Hnow.
  assert (Hgate : (request_cooldown (self s) <= elapsed env s)%Q).
  { unfold elapsed. rewrite Hinit. cbn [last_request_time request_cooldown init] in *. lra. }
  split; [ rewrite Hinit; reflexivity | split; [ | split ] ].
  - rewrite (check_time_permits env s Hgate). reflexivity.
  - intros city st w. pass_gate Hgate.
    destruct (fetchone env city st) as [[row0 row1]|].
    + rewrite try_finally_stop. unfold_methods. split_cases; discriminate.
    + cbn. discriminate.
  - intros sc cc w. unfold check_active_alerts.
    destruct sc, cc; cbn [is_None andb negb]; try (cbn; discriminate).
    all: rewrite (bind_returns _ _ _ _ _ (check_time_permits env s Hgate)).
    all: unfold fetch_alerts; rewrite try_finally_stop; unfold_methods.
    all: split_cases; discriminate.
Qed.

Lemma first_call_passes_witness :
  fst (check_time (sample_env (ok JNull)) fresh) = Returns tt.
Proof.
  apply (first_call_passes (sample_env (ok JNull)) fresh).
  - reflexivity.
  - vm_compute. discriminate.
Defined.

(** *** The alert requests *)

(** C4. With neither argument, or with both, [check_active_alerts] raises
    [UnknownError] and leaves the whole state as it was: the clock has not
    been read (so the gate has not been consulted) and no request has been
    sent. *)
Theorem check_active_alerts_illegal_arguments (env : Env) (s : Sys) :
  check_active_alerts env None None s
  = (Raises (UnknownError
               "You must provide an argument in the form of a state code or county code"),
     s)
  /\ (forall state_code county_code,
        check_active_alerts env (Some state_code) (Some county_code) s
        = (Raises (UnknownError "You may only provide one argument"), s)).
Proof. split; [ reflexivity | intros; reflexivity ]. Qed.

(** C7. When a request passes the gate and the server answers with a
    status other than 200, the method raises [APIError] with that very
    status, and nothing is written to the log: the handler of
    [except Exception] is not entered. *)
Theorem non_200_raises_APIError (env : Env) (s : Sys) (r : Response) :
  (request_cooldown (self s) <= elapsed env s)%Q ->
  status_code r <> 200%Z ->
  (forall city_name state_code row0 row1,
      fetchone env city_name state_code = Some (row0, row1) ->
      requests_get env (List.length (sent s)) (points_url row0 row1) = Responded r ->
      fst (countyid_from_city env city_name state_code s) = Raises (APIError (status_code r))
      /\ api_err_log (snd (countyid_from_city env city_name state_code s)) = api_err_log s)
  /\ (forall state_code,
        requests_get env (List.length (sent s)) (area_url state_code) = Responded r ->
        fst (check_active_alerts env (Some state_code) None s)
        = Raises (APIError (status_code r))
        /\ api_err_log (snd (check_active_alerts env (Some state_code) None s))
           = api_err_log s)
  /\ (forall county_code,
        requests_get env (List.length (sent s)) (zone_url county_code) = Responded r ->
        fst (check_active_alerts env None (Some county_code) s)
        = Raises (APIError (status_code r))
        /\ api_err_log (snd (check_active_alerts env None (Some county_code) s))
           = api_err_log s).
Proof.
  intros Hgate Hst. apply Z.eqb_neq in Hst.
  unfold points_url, area_url, zone_url.
  split; [ | split ].
  - intros city st row0 row1 Hrow Hget. pass_gate Hgate. rewrite Hrow.
    rewrite try_finally_stop. unfold_methods.
    cbn [sent let_through]. rewrite Hget, Hst. split; reflexivity.
  - intros sc Hget. pass_gate Hgate. unfold fetch_alerts.
    rewrite try_finally_stop. unfold_methods.
    cbn [sent let_through]. rewrite Hget, Hst. split; reflexivity.
  - intros cc Hget. pass_gate Hgate. unfold fetch_alerts.
    rewrite try_finally_stop. unfold_methods.
    cbn [sent let_through]. rewrite Hget, Hst. split; reflexivity.
Qed.

Lemma non_200_raises_APIError_witness :
  fst (countyid_from_city (sample_env (status 503)) "Moore" "OK" fresh)
  = Raises (APIError 503)
  /\ api_err_log (snd (countyid_from_city (sample_env (status 503)) "Moore" "OK" fresh))
     = [].
Proof.
  assert (Hgate : (request_cooldown (self fresh)
                   <= elapsed (sample_env (status 503)) fresh)%Q)
    by (vm_compute; discriminate).
  apply (proj1 (non_200_raises_APIError (sample_env (status 503)) fresh
                  {| status_code := 503;
                     json := Undecodable "Expecting value: line 1 column 1 (char 0)" |}
                  Hgate ltac:(discriminate))
           "Moore" "OK" "35.3395" "-97.4867"); reflexivity.
Defined.

(** C8, as the code has it.  When a request for alerts passes the gate and
    the server answers 200 with a body that decodes, [check_active_alerts]
    returns the decoded document itself, whatever it holds: the features
    are its ["features"] member, and a document with no features, or with
    no such member, is returned like any other. *)
Theorem check_active_alerts_returns_document (env : Env) (s : Sys) (r : Response) (j : JSON) :
  (request_cooldown (self s) <= elapsed env s)%Q ->
  status_code r = 200%Z ->
  json r = Document j ->
  (forall state_code,
      requests_get env (List.length (sent s)) (area_url state_code) = Responded r ->
      fst (check_active_alerts env (Some state_code) None s) = Returns j)
  /\ (forall county_code,
        requests_get env (List.length (sent s)) (zone_url county_code) = Responded r ->
        fst (check_active_alerts env None (Some county_code) s) = Returns j).
Proof.
  intros Hgate Hst Hj. apply Z.eqb_eq in Hst.
  unfold area_url, zone_url.
  split.
  - intros sc Hget. pass_gate Hgate. unfold fetch_alerts.
    rewrite try_finally_stop. unfold_methods.
    cbn [sent let_through]. rewrite Hget, Hst, Hj. reflexivity.
  - intros cc Hget. pass_gate Hgate. unfold fetch_alerts.
    rewrite try_finally_stop. unfold_methods.
    cbn [sent let_through]. rewrite Hget, Hst, Hj. reflexivity.
Qed.

Lemma check_active_alerts_returns_document_witness :
  fst (check_active_alerts (sample_env (ok (JDict []))) None (Some "OKC027") fresh)
  = Returns (JDict []).
Proof.
  assert (Hgate : (request_cooldown (self fresh)
                   <= elapsed (sample_env (ok (JDict []))) fresh)%Q)
    by (vm_compute; discriminate).
  apply (proj2 (check_active_alerts_returns_document (sample_env (ok (JDict []))) fresh
                  {| status_code := 200; json := Document (JDict []) |} (JDict [])
                  Hgate eq_refl eq_refl)
           "OKC027"); reflexivity.
Defined.

(** C8 as stated fails: what comes back is the document, not its list of
    features. *)
Lemma check_active_alerts_not_the_feature_list :
  let body := JDict [("type", JString "FeatureCollection"); ("features", JList [])] in
  let r := check_active_alerts (sample_env (ok body)) (Some "OK") None fresh in
  getitem body "features" = Returns (JList [])
  /\ fst r = Returns body
  /\ fst r <> Returns (JList []).
Proof.
  cbv zeta. split; [ reflexivity | split ].
  - vm_compute. reflexivity.
  - vm_compute. discriminate.
Qed.

(** *** The point lookup *)

(** For contrast: a 200 response whose body does not decode is caught by
    the handler, which appends one line with the cause to the log and
    raises the generic [UnknownError]. *)
Lemma undecodable_body_is_logged (env : Env) (s : Sys) (city_name state_code row0 row1 : string)
      (r : Response) (text : string) :
  (request_cooldown (self s) <= elapsed env s)%Q ->
  fetchone env city_name state_code = Some (row0, row1) ->
  requests_get env (List.length (sent s)) (points_url row0 row1) = Responded r ->
  status_code r = 200%Z ->
  json r = Undecodable text ->
  fst (countyid_from_city env city_name state_code s) = Raises (UnknownError could_not_parse)
  /\ api_err_log (snd (countyid_from_city env city_name state_code s))
     = (api_err_log s
        ++ [(time_strftime env (S (S (ticks s))) ++ " - " ++ text ++ newline)%string])%list.
Proof.
  intros Hgate Hrow Hget Hst Hj. apply Z.eqb_eq in Hst.
  unfold points_url in Hget. pass_gate Hgate. rewrite Hrow.
  rewrite try_finally_stop. unfold_methods.
  cbn [sent let_through]. rewrite Hget, Hst, Hj. split; reflexivity.
Qed.

(** C5, as the code has it.  When the point lookup answers 200 and the
    county field holds no run of letters followed by digits,
    [countyid_from_city] raises [UnknownError] with the message
    "County ID not found in API response." and writes nothing to the log:
    [UnknownError] is not an [Exception], so the handler is not entered. *)
Theorem county_id_not_found (env : Env) (s : Sys) (city_name state_code row0 row1 : string)
        (r : Response) (j properties : JSON) (county : string) :
  (request_cooldown (self s) <= elapsed env s)%Q ->
  fetchone env city_name state_code = Some (row0, row1) ->
  requests_get env (List.length (sent s)) (points_url row0 row1) = Responded r ->
  status_code r = 200%Z ->
  json r = Document j ->
  getitem j "properties" = Returns properties ->
  getitem properties "county" = Returns (JString county) ->
  re_search (county_re (isdecimal env)) county = None ->
  fst (countyid_from_city env city_name state_code s)
  = Raises (UnknownError "County ID not found in API response.")
  /\ api_err_log (snd (countyid_from_city env city_name state_code s)) = api_err_log s.
Proof.
  intros Hgate Hrow Hget Hst Hj Hp Hc Hnone. apply Z.eqb_eq in Hst.
  unfold points_url in Hget. pass_gate Hgate. rewrite Hrow.
  rewrite try_finally_stop. unfold_methods.
  cbn [sent let_through]. rewrite Hget, Hst, Hj.
  cbn -[getitem search append]. rewrite Hp.
  cbn -[getitem search append]. rewrite Hc.
  cbn -[getitem re_search append]. rewrite Hnone. split; reflexivity.
Qed.

Lemma county_id_not_found_witness :
  let env := sample_env (ok (point_document "https://api.weather.gov/zones/county/")) in
  fst (countyid_from_city env "Moore" "OK" fresh)
  = Raises (UnknownError "County ID not found in API response.")
  /\ api_err_log (snd (countyid_from_city env "Moore" "OK" fresh)) = [].
Proof.
  cbv zeta.
  assert (Hgate : (request_cooldown (self fresh)
                   <= elapsed (sample_env (ok (point_document
                                                 "https://api.weather.gov/zones/county/")))
                        fresh)%Q)
    by (vm_compute; discriminate).
  apply (county_id_not_found
           (sample_env (ok (point_document "https://api.weather.gov/zones/county/")))
           fresh "Moore" "OK" "35.3395" "-97.4867"
           {| status_code := 200;
              json := Document (point_document "https://api.weather.gov/zones/county/") |}
           (point_document "https://api.weather.gov/zones/county/")
           (JDict [("county", JString "https://api.weather.gov/zones/county/")])
           "https://api.weather.gov/zones/county/"
           Hgate); reflexivity.
Defined.

(** C5 as stated fails: on such a response no line is appended to the
    log, and the caller sees the cause, not the generic message. *)
Lemma county_id_not_found_is_not_logged :
  let env := sample_env (ok (point_document "https://api.weather.gov/zones/county/")) in
  let r := countyid_from_city env "Moore" "OK" fresh in
  re_search (county_re unicode_decimal) "https://api.weather.gov/zones/county/" = None
  /\ List.length (api_err_log (snd r)) <> S (List.length (api_err_log fresh))
  /\ fst r <> Raises (UnknownError could_not_parse).
Proof.
  cbv zeta. split; [ reflexivity | split ].
  - vm_compute. discriminate.
  - vm_compute. discriminate.
Qed.

(** C6, as the code has it.  [countyid_from_city] sets [last_request_time]
    to the clock's reading exactly when the point lookup answers 200,
    before the body is looked at; every call that returns a county id is
    such a call; when the gate refuses, the city is unknown, the request
    fails or the status is not 200, [last_request_time] stays as it was. *)
Theorem last_request_time_updated_on_200 (env : Env) (s : Sys) (city_name state_code : string) :
  let r := countyid_from_city env city_name state_code s in
  last_request_time (self (snd r))
  = (if answered_200 env s city_name state_code
     then time_time env (S (ticks s))
     else last_request_time (self s))
  /\ (forall county_id, fst r = Returns county_id ->
                        answered_200 env s city_name state_code = true).
Proof.
  unfold answered_200, points_url. cbv zeta.
  destruct (Qltb (elapsed env s) (request_cooldown (self s))) eqn:Hg.
  - apply Qltb_true in Hg. unfold countyid_from_city.
    rewrite (bind_raises _ _ _ _ _ (check_time_refuses env s Hg)).
    split; [ reflexivity | discriminate ].
  - apply Qltb_false in Hg. pass_gate Hg.
    destruct (fetchone env city_name state_code) as [[row0 row1]|].
    + rewrite try_finally_stop. unfold_methods.
      cbn [sent let_through negb andb].
      split_cases; (split; [ reflexivity | try discriminate; reflexivity ]).
    + cbn. split; [ reflexivity | discriminate ].
Qed.

(** C6 as stated fails: this call ends in an error, and has moved
    [last_request_time]. *)
Lemma failed_call_moves_last_request_time :
  let env := sample_env (ok (point_document "https://api.weather.gov/zones/county/")) in
  let r := countyid_from_city env "Moore" "OK" fresh in
  fst r = Raises (UnknownError "County ID not found in API response.")
  /\ ~ (last_request_time (self (snd r)) == last_request_time (self fresh))%Q.
Proof.
  cbv zeta. split.
  - vm_compute. reflexivity.
  - vm_compute. discriminate.
Qed.

(** *** Searching a text for "warning" or "emergency" *)

Lemma strip_prefix_app (p s rest : string) :
  strip_prefix p s = Some rest -> s = p ++ rest.
Proof.
  revert s. induction p as [|a p IH]; intros s H.
  - cbn in H. injection H as <-. reflexivity.
  - destruct s as [|b s]; [ discriminate | ]. cbn in H.
    destruct (Ascii.eqb a b) eqn:E; [ | discriminate ].
    apply Ascii.eqb_eq in E. subst b. cbn. f_equal. apply IH. exact H.
Qed.

Lemma strip_prefix_none (p s : string) :
  String.prefix p s = false <-> strip_prefix p s = None.
Proof.
  revert s. induction p as [|a p IH]; intros s.
  - destruct s; cbn; split; discriminate.
  - destruct s as [|b s]; cbn; [ tauto | ].
    destruct (ascii_dec a b) as [->|N].
    + rewrite Ascii.eqb_refl. apply IH.
    + apply Ascii.eqb_neq in N. rewrite N. tauto.
Qed.

Lemma length_append (p rest : string) :
  String.length (p ++ rest) = (String.length p + String.length rest)%nat.
Proof. induction p as [|a p IH]; cbn; [ reflexivity | rewrite IH; reflexivity ]. Qed.

Lemma take_app (p rest : string) :
  take (String.length (p ++ rest) - String.length rest) (p ++ rest) = p.
Proof.
  assert (H : forall n, n = String.length p -> take n (p ++ rest) = p).
  { intros n ->. induction p as [|a p IH]; cbn.
    - destruct rest; reflexivity.
    - f_equal. exact IH. }
  apply H. rewrite length_append. lia.
Qed.

Lemma match_here_severity (s : string) :
  match_here severity_re s
  = if String.prefix "warning" s then Some "warning"
    else if String.prefix "emergency" s then Some "emergency"
    else None.
Proof.
  unfold match_here, severity_re. cbn [rmatch].
  destruct (strip_prefix "warning" s) as [rest|] eqn:W.
  - assert (P : String.prefix "warning" s = true).
    { destruct (String.prefix "warning" s) eqn:P; [ reflexivity | ].
      apply strip_prefix_none in P. congruence. }
    rewrite P. apply strip_prefix_app in W. subst s. f_equal. apply take_app.
  - apply strip_prefix_none in W. rewrite W.
    destruct (strip_prefix "emergency" s) as [rest|] eqn:E.
    + assert (P : String.prefix "emergency" s = true).
      { destruct (String.prefix "emergency" s) eqn:P; [ reflexivity | ].
        apply strip_prefix_none in P. congruence. }
      rewrite P. apply strip_prefix_app in E. subst s. f_equal. apply take_app.
    + apply strip_prefix_none in E. rewrite E. reflexivity.
Qed.

Lemma search_severity_emergency (s : string) :
  re_search severity_re s = Some "emergency" -> contains "emergency" s = true.
Proof.
  induction s as [|c s IH].
  - cbn. discriminate.
  - cbn [re_search contains]. rewrite match_here_severity.
    destruct (String.prefix "warning" (String c s)); [ discriminate | ].
    destruct (String.prefix "emergency" (String c s)); [ reflexivity | ].
    exact IH.
Qed.

Lemma search_severity_values (s sev : string) :
  re_search severity_re s = Some sev -> sev = "warning" \/ sev = "emergency".
Proof.
  induction s as [|c s IH].
  - cbn. discriminate.
  - cbn [re_search]. rewrite match_here_severity.
    destruct (String.prefix "warning" (String c s)); [ intros [= <-]; auto | ].
    destruct (String.prefix "emergency" (String c s)); [ intros [= <-]; auto | ].
    exact IH.
Qed.

Lemma search_severity_no_warning (s : string) :
  contains "warning" s = false ->
  contains "emergency" s = true ->
  re_search severity_re s = Some "emergency".
Proof.
  induction s as [|c s IH].
  - cbn. discriminate.
  - cbn [re_search contains]. rewrite match_here_severity.
    destruct (String.prefix "warning" (String c s)); [ discriminate | ].
    destruct (String.prefix "emergency" (String c s)); [ reflexivity | ].
    exact IH.
Qed.

Lemma lower_char_idempotent (c : ascii) : lower_char (lower_char c) = lower_char c.
Proof. destruct c as [[] [] [] [] [] [] [] []]; reflexivity. Qed.

Lemma lower_idempotent (s : string) : lower (lower s) = lower s.
Proof.
  induction s as [|c s IH]; cbn; [ reflexivity | ].
  rewrite lower_char_idempotent, IH. reflexivity.
Qed.

(** What the tornado branch does in general: with no "particularly
    dangerous situation" in the description, [emergency_tor] is set exactly
    when the first of the words "warning" and "emergency" in the lowered
    NWSheadline is "emergency". *)
Theorem tornado_emergency_flag (feature : AlertFeature) (alert_type0 v : string) (fl : Flags) :
  re_search alert_type_re (lower (headline feature)) = Some alert_type0 ->
  contains "tornado" (lower alert_type0) = true ->
  contains "particularly dangerous situation" (lower (description feature)) = false ->
  item0 (dict_get (parameters feature) "NWSheadline" [""]) = Returns v ->
  special_flags feature = Returns fl ->
  pds_tor fl = false
  /\ (emergency_tor fl = true <-> re_search severity_re (lower v) = Some "emergency")
  /\ (emergency_tor fl = true -> contains "emergency" (lower v) = true)
  /\ (contains "warning" (lower v) = false ->
      contains "emergency" (lower v) = true ->
      emergency_tor fl = true).
Proof.
  intros Htype Htor Hpds Hv. unfold special_flags. rewrite Htype, Htor.
  unfold tornado_details. rewrite Hpds, Hv. cbn [obind]. rewrite lower_idempotent.
  destruct (re_search severity_re (lower v)) as [sev|] eqn:Hsev.
  - destruct (search_severity_values _ _ Hsev) as [-> | ->].
    + cbn. intros [= <-]. cbn. repeat split; try discriminate.
      intros Hw He. rewrite (search_severity_no_warning _ Hw He) in Hsev. discriminate.
    + cbn. intros [= <-]. cbn. repeat split; intros; try reflexivity.
      apply search_severity_emergency. exact Hsev.
  - intros [= <-]. cbn. repeat split; try discriminate.
    intros Hw He. rewrite (search_severity_no_warning _ Hw He) in Hsev. discriminate.
Qed.

(** *** The analysis of an alert *)

Ltac split_branches H :=
  repeat match type of H with
         | context [match ?x with _ => _ end] => destruct x eqn:?
         end.

(** The analysis on alerts of the five kinds. *)
Example pds_tornado :
  let feature :=
    alert "Tornado Warning issued November 14 at 4:13PM CST by NWS Norman OK"
          "This is a PARTICULARLY DANGEROUS SITUATION. Take cover now." [] in
  special_flags feature = Returns (only true false false false)
  /\ color (only true false false false) = 8388736%Z
  /\ shown_title (feature_embed feature)
     = Returns (pic_pds_tor ++ " PDS TORNADO WARNING " ++ pic_pds_tor).
Proof. repeat split; vm_compute; reflexivity. Qed.

Example tornado_emergency :
  special_flags sample_tor = Returns (only false true false false)
  /\ color (only false true false false) = 8388736%Z
  /\ shown_title (feature_embed sample_tor)
     = Returns (pic_tor_emergency ++ " TORNADO EMERGENCY " ++ pic_tor_emergency).
Proof. repeat split; vm_compute; reflexivity. Qed.

Example destructive_thunderstorm :
  special_flags sample_tstorm = Returns (only false false true false)
  /\ color (only false false true false) = 16753920%Z.
Proof. repeat split; vm_compute; reflexivity. Qed.

Example flash_flood_emergency :
  special_flags sample_flood = Returns (only false false false true)
  /\ color (only false false false true) = 255%Z.
Proof. repeat split; vm_compute; reflexivity. Qed.

Example winter_storm_advisory :
  let feature := alert "Winter Storm Advisory" "Heavy snow expected." [] in
  special_flags feature = Returns no_flags
  /\ color no_flags = 16711705%Z
  /\ shown_title (feature_embed feature) = Returns "Winter Storm Advisory".
Proof. repeat split; vm_compute; reflexivity. Qed.

(** An alert whose NWSheadline is the empty list stops the analysis. *)
Example empty_headline_list :
  special_flags
    (alert "Tornado Warning issued November 14 at 4:13PM CST by NWS Norman OK"
           "At 413 PM CST, a confirmed large tornado was located over Moore."
           [("NWSheadline", [])])
  = Raises (PyException "IndexError" "list index out of range").
Proof. vm_compute. reflexivity. Qed.

(** C9. Whatever the alert, at most one of the four flags is set by the
    analysis. *)
Theorem at_most_one_flag (feature : AlertFeature) (fl : Flags) :
  special_flags feature = Returns fl ->
  (flags_set fl <= 1)%nat.
Proof.
  unfold special_flags, tornado_details, tstorm_details, flood_details, obind.
  intros H. split_branches H.
  all: try discriminate.
  all: injection H as <-; cbn; lia.
Qed.

Lemma at_most_one_flag_witness :
  (flags_set (only false false true false) <= 1)%nat.
Proof.
  apply (at_most_one_flag sample_tstorm).
  vm_compute. reflexivity.
Defined.

(** C3, as the code has it.  The title of the embed follows the flags in
    this order: [emergency_tor], then [pds_tor], then [destructive_tstorm],
    then [emergency_flood], else the headline; the four special titles are
    framed by a pictograph, and the third reads "DESTRUCTIVE SVR.
    THUNDERSTORM WARNING".  The order is stated for every setting of the
    four flags, also those with several of them set, where it decides;
    and the embed of an alert is the one built for the flags its analysis
    gives. *)
Theorem embed_title_priority (feature : AlertFeature) :
  (forall fl,
      (emergency_tor fl = true ->
       title (make_embed feature fl)
       = pic_tor_emergency ++ " TORNADO EMERGENCY " ++ pic_tor_emergency)
      /\ (emergency_tor fl = false -> pds_tor fl = true ->
          title (make_embed feature fl)
          = pic_pds_tor ++ " PDS TORNADO WARNING " ++ pic_pds_tor)
      /\ (emergency_tor fl = false -> pds_tor fl = false -> destructive_tstorm fl = true ->
          title (make_embed feature fl)
          = pic_tstorm ++ " DESTRUCTIVE SVR. THUNDERSTORM WARNING " ++ pic_tstorm)
      /\ (emergency_tor fl = false -> pds_tor fl = false -> destructive_tstorm fl = false ->
          emergency_flood fl = true ->
          title (make_embed feature fl)
          = pic_flood ++ " FLASH FLOOD EMERGENCY " ++ pic_flood)
      /\ (emergency_tor fl = false -> pds_tor fl = false -> destructive_tstorm fl = false ->
          emergency_flood fl = false ->
          title (make_embed feature fl) = headline feature))
  /\ (forall e,
        feature_embed feature = Returns e ->
        exists fl, special_flags feature = Returns fl /\ e = make_embed feature fl).
Proof.
  split.
  - intros fl. cbn [title make_embed]. unfold embed_title.
    repeat split; intros; repeat match goal with H : _ = _ |- _ => rewrite H end; reflexivity.
  - intros e. unfold feature_embed.
    destruct (special_flags feature) as [fl|err]; [ | discriminate ].
    cbn [obind]. intros [= <-]. exists fl. split; reflexivity.
Qed.

Lemma embed_title_priority_witness :
  title (make_embed sample_tor (only true true true true))
  = pic_tor_emergency ++ " TORNADO EMERGENCY " ++ pic_tor_emergency
  /\ title (make_embed sample_tor (only true false true true))
     = pic_pds_tor ++ " PDS TORNADO WARNING " ++ pic_pds_tor
  /\ title (make_embed sample_tor (only false false true true))
     = pic_tstorm ++ " DESTRUCTIVE SVR. THUNDERSTORM WARNING " ++ pic_tstorm.
Proof.
  split; [ | split ].
  - apply (proj1 (proj1 (embed_title_priority sample_tor) (only true true true true))).
    reflexivity.
  - apply (proj1 (proj2 (proj1 (embed_title_priority sample_tor)
                           (only true false true true)))); reflexivity.
  - apply (proj1 (proj2 (proj2 (proj1 (embed_title_priority sample_tor)
                                  (only false false true true))))); reflexivity.
Defined.

(** C3 as stated fails on the titles: the title of a destructive severe
    thunderstorm does not hold the words "DESTRUCTIVE SEVERE THUNDERSTORM
    WARNING", and the title of a tornado emergency is more than the words
    "TORNADO EMERGENCY". *)
Lemma special_titles_differ :
  special_flags sample_tstorm = Returns (only false false true false)
  /\ shown_title (feature_embed sample_tstorm)
     = Returns (pic_tstorm ++ " DESTRUCTIVE SVR. THUNDERSTORM WARNING " ++ pic_tstorm)
  /\ shown_title (feature_embed sample_tstorm)
     <> Returns "DESTRUCTIVE SEVERE THUNDERSTORM WARNING"
  /\ contains "DESTRUCTIVE SEVERE THUNDERSTORM WARNING"
              (pic_tstorm ++ " DESTRUCTIVE SVR. THUNDERSTORM WARNING " ++ pic_tstorm) = false
  /\ special_flags sample_tor = Returns (only false true false false)
  /\ shown_title (feature_embed sample_tor) <> Returns "TORNADO EMERGENCY".
Proof.
  repeat split; vm_compute; solve [ reflexivity | discriminate ].
Qed.

(** C2, at the input where the code departs from it.  The alert is a
    tornado warning, its description has no "particularly dangerous
    situation", the first NWSheadline holds "emergency" -- after
    "warning" -- and [emergency_tor] is not set: [re.search] stops at the
    first of the two words, which is "warning". *)
Theorem tornado_emergency_after_warning_is_missed :
  re_search alert_type_re (lower (headline sample_tor_upgraded)) = Some "tornado warning"
  /\ contains "particularly dangerous situation" (lower (description sample_tor_upgraded))
     = false
  /\ item0 (dict_get (parameters sample_tor_upgraded) "NWSheadline" [""])
     = Returns warning_then_emergency
  /\ contains "emergency" (lower warning_then_emergency) = true
  /\ re_search severity_re (lower warning_then_emergency) = Some "warning"
  /\ special_flags sample_tor_upgraded = Returns no_flags.
Proof.
  repeat split; vm_compute; reflexivity.
Qed.

(** ** Further properties *)

(** *** Texts and searches *)

Lemma append_assoc (a b c : string) : (a ++ b) ++ c = a ++ b ++ c.
Proof. induction a as [|x a IH]; cbn; [ reflexivity | rewrite IH; reflexivity ]. Qed.


Lemma strip_prefix_self (p rest : string) : strip_prefix p (p ++ rest) = Some rest.
Proof.
  induction p as [|a p IH]; cbn; [ reflexivity | ].
  rewrite Ascii.eqb_refl. exact IH.
Qed.

Lemma prefix_true (p s : string) :
  String.prefix p s = true <-> exists rest, s = p ++ rest.
Proof.
  split.
  - intros H. destruct (strip_prefix p s) as [rest|] eqn:E.
    + exists rest. apply strip_prefix_app. exact E.
    + apply strip_prefix_none in E. congruence.
  - intros [rest ->]. destruct (String.prefix p (p ++ rest)) eqn:E; [ reflexivity | ].
    apply strip_prefix_none in E. rewrite strip_prefix_self in E. discriminate.
Qed.

(** [pat in s] holds exactly when [pat] occurs in [s]. *)
Lemma contains_true (pat s : string) :
  contains pat s = true <-> exists pre post, s = pre ++ pat ++ post.
Proof.
  split.
  - induction s as [|c s IH]; cbn [contains].
    + destruct (String.prefix pat "") eqn:E; [ | discriminate ].
      intros _. apply prefix_true in E. destruct E as [rest E]. exists "", rest. exact E.
    + destruct (String.prefix pat (String c s)) eqn:E.
      * intros _. apply prefix_true in E. destruct E as [rest E]. exists "", rest. exact E.
      * intros H. destruct (IH H) as (pre & post & ->). exists (String c pre), post. reflexivity.
  - intros (pre & post & ->). induction pre as [|c pre IH]; cbn [append].
    + destruct (pat ++ post) eqn:E; cbn [contains].
      * assert (P : String.prefix pat "" = true) by (apply prefix_true; exists post; auto).
        rewrite P. reflexivity.
      * assert (P : String.prefix pat (String a s) = true) by (apply prefix_true; exists post; auto).
        rewrite P. reflexivity.
    + cbn [contains]. rewrite IH. destruct (String.prefix pat _); reflexivity.
Qed.

Lemma contains_trans (a m s : string) :
  contains a m = true -> contains m s = true -> contains a s = true.
Proof.
  intros Ha Hm. apply contains_true in Ha. apply contains_true in Hm.
  destruct Ha as (p1 & q1 & ->). destruct Hm as (p2 & q2 & ->).
  apply contains_true. exists (p2 ++ p1), (q1 ++ q2).
  rewrite !append_assoc. reflexivity.
Qed.

(** What a match consumes is a prefix of the input. *)
Lemma match_plus_run (cls : ascii -> bool) (s : string) (k : string -> option string)
      (rest : string) :
  match_plus cls s k = Some rest ->
  exists run mid,
    s = run ++ mid /\ run <> "" /\ all_chars cls run = true /\ k mid = Some rest.
Proof.
  revert rest. induction s as [|c s IH]; intros rest; cbn [match_plus]; [ discriminate | ].
  destruct (cls c) eqn:Hc; [ | discriminate ].
  destruct (match_plus cls s k) as [r|] eqn:E.
  - intros [= <-]. destruct (IH r eq_refl) as (run & mid & -> & _ & Hall & Hk).
    exists (String c run), mid. cbn. rewrite Hc, Hall. repeat split; auto. discriminate.
  - intros Hk. exists (String c ""), s. cbn. rewrite Hc. repeat split; auto. discriminate.
Qed.

(** A character is one to four bytes at the head of the text. *)
Lemma next_char_split (s s' : string) (cp : N) :
  next_char s = Some (cp, s') ->
  exists c, s = c ++ s' /\ c <> "" /\ next_char c = Some (cp, "").
Proof.
  destruct s as [|b0 s1]; [ discriminate | ].
  unfold next_char. cbv zeta.
  destruct (N_of_ascii b0 <? 128)%N eqn:E1.
  { intros [= <- <-]. exists (String b0 ""). rewrite E1.
    repeat split; discriminate || reflexivity. }
  destruct ((192 <=? N_of_ascii b0)%N && (N_of_ascii b0 <? 224)%N) eqn:E2.
  { destruct s1 as [|b1 s2]; [ discriminate | ].
    destruct (continuation b1) as [n1|] eqn:C1; [ | discriminate ].
    intros [= <- <-]. exists (String b0 (String b1 "")). rewrite E1, E2, C1.
    repeat split; discriminate || reflexivity. }
  destruct ((224 <=? N_of_ascii b0)%N && (N_of_ascii b0 <? 240)%N) eqn:E3.
  { destruct s1 as [|b1 [|b2 s3]]; try discriminate.
    destruct (continuation b1) as [n1|] eqn:C1; [ | discriminate ].
    destruct (continuation b2) as [n2|] eqn:C2; [ | discriminate ].
    intros [= <- <-]. exists (String b0 (String b1 (String b2 ""))).
    rewrite E1, E2, E3, C1, C2. repeat split; discriminate || reflexivity. }
  destruct ((240 <=? N_of_ascii b0)%N && (N_of_ascii b0 <? 248)%N) eqn:E4;
    [ | discriminate ].
  destruct s1 as [|b1 [|b2 [|b3 s4]]]; try discriminate.
  destruct (continuation b1) as [n1|] eqn:C1; [ | discriminate ].
  destruct (continuation b2) as [n2|] eqn:C2; [ | discriminate ].
  destruct (continuation b3) as [n3|] eqn:C3; [ | discriminate ].
  intros [= <- <-]. exists (String b0 (String b1 (String b2 (String b3 "")))).
  rewrite E1, E2, E3, E4, C1, C2, C3. repeat split; discriminate || reflexivity.
Qed.

Lemma next_char_shorter (s s' : string) (cp : N) :
  next_char s = Some (cp, s') -> (String.length s' < String.length s)%nat.
Proof.
  intros H. destruct (next_char_split _ _ _ H) as (c & -> & Hc & _).
  rewrite length_append. destruct c; [ contradiction | cbn; lia ].
Qed.

(** The length of the text is fuel enough: more changes nothing. *)
Lemma match_plus_u_fuel (cls : N -> bool) (k : string -> option string)
      (fuel fuel' : nat) (s : string) :
  (String.length s <= fuel)%nat -> (String.length s <= fuel')%nat ->
  match_plus_u cls fuel s k = match_plus_u cls fuel' s k.
Proof.
  revert fuel' s. induction fuel as [|fuel IH]; intros fuel' s H H'.
  - destruct s; [ | cbn in H; lia ]. destruct fuel'; reflexivity.
  - destruct fuel' as [|fuel'].
    + destruct s; [ reflexivity | cbn in H'; lia ].
    + cbn [match_plus_u]. destruct (next_char s) as [[cp s']|] eqn:E; [ | reflexivity ].
      apply next_char_shorter in E. destruct (cls cp); [ | reflexivity ].
      rewrite (IH fuel' s') by lia. reflexivity.
Qed.

Lemma match_plus_u_run (cls : N -> bool) (fuel : nat) (s : string)
      (k : string -> option string) (rest : string) :
  match_plus_u cls fuel s k = Some rest ->
  exists run mid, s = run ++ mid /\ run_of cls run /\ k mid = Some rest.
Proof.
  revert s rest. induction fuel as [|fuel IH]; intros s rest; cbn [match_plus_u];
    [ discriminate | ].
  destruct (next_char s) as [[cp s']|] eqn:E; [ | discriminate ].
  destruct (cls cp) eqn:Hc; [ | discriminate ].
  destruct (next_char_split _ _ _ E) as (c & -> & _ & Hone).
  destruct (match_plus_u cls fuel s' k) as [r|] eqn:Hm.
  - intros [= <-]. destruct (IH _ _ Hm) as (run & mid & -> & Hrun & Hk).
    exists (c ++ run), mid. rewrite append_assoc. repeat split; auto.
    exact (run_more cls c cp run Hone Hc Hrun).
  - intros Hk. exists c, s'. repeat split; auto.
    exact (run_one cls c cp Hone Hc).
Qed.

Lemma run_of_not_empty (cls : N -> bool) (s : string) : run_of cls s -> s <> "".
Proof.
  intros H. destruct H as [c cp H _ | c cp t H _ _].
  - destruct c; [ discriminate H | discriminate ].
  - destruct c; [ discriminate H | discriminate ].
Qed.

Lemma rmatch_consumes (r : regex) (s : string) (k : string -> option string) (rest : string) :
  rmatch r s k = Some rest ->
  exists used mid, s = used ++ mid /\ k mid = Some rest.
Proof.
  revert s k rest.
  induction r as [l|cls|r1 IH1 r2 IH2|r1 IH1 r2 IH2|cls]; intros s k rest; cbn [rmatch].
  - destruct (strip_prefix l s) as [s'|] eqn:E; [ | discriminate ].
    intros Hk. apply strip_prefix_app in E. exists l, s'. auto.
  - intros H. destruct (match_plus_run _ _ _ _ H) as (run & mid & -> & _ & _ & Hk).
    exists run, mid. auto.
  - intros H. destruct (IH1 _ _ _ H) as (u1 & m1 & -> & H2).
    destruct (IH2 _ _ _ H2) as (u2 & m2 & -> & Hk).
    exists (u1 ++ u2), m2. rewrite append_assoc. auto.
  - destruct (rmatch r1 s k) as [x|] eqn:E.
    + intros [= <-]. apply IH1. exact E.
    + apply IH2.
  - intros H. destruct (match_plus_u_run _ _ _ _ _ H) as (run & mid & -> & _ & Hk).
    exists run, mid. auto.
Qed.

Lemma match_here_prefix (r : regex) (s m : string) :
  match_here r s = Some m -> exists rest, s = m ++ rest.
Proof.
  unfold match_here. destruct (rmatch r s Some) as [rest|] eqn:E; [ | discriminate ].
  intros [= <-]. destruct (rmatch_consumes _ _ _ _ E) as (used & mid & -> & [= ->]).
  exists rest. rewrite take_app. reflexivity.
Qed.

(** [match[0]] of a search occurs in the text searched. *)
Lemma re_search_occurs (r : regex) (s m : string) :
  re_search r s = Some m -> contains m s = true.
Proof.
  intros H. apply contains_true. revert H.
  induction s as [|c s IH]; cbn [re_search].
  - destruct (match_here r "") as [x|] eqn:E; [ | discriminate ].
    intros [= <-]. apply match_here_prefix in E. destruct E as [rest E].
    exists "", rest. exact E.
  - destruct (match_here r (String c s)) as [x|] eqn:E.
    + intros [= <-]. apply match_here_prefix in E. destruct E as [rest E].
      exists "", rest. exact E.
    + intros H. destruct (IH H) as (pre & post & ->). exists (String c pre), post. reflexivity.
Qed.

Lemma match_here_county (isdecimal : N -> bool) (s m : string) :
  match_here (county_re isdecimal) s = Some m ->
  exists l d rest,
    s = l ++ d ++ rest /\ m = l ++ d
    /\ l <> "" /\ all_chars letter l = true
    /\ run_of isdecimal d.
Proof.
  unfold match_here, county_re. cbn [rmatch].
  destruct (match_plus letter s _) as [rest|] eqn:E; [ | discriminate ].
  intros [= <-].
  destruct (match_plus_run _ _ _ _ E) as (l & mid & -> & Hl & Hal & Hd).
  destruct (match_plus_u_run _ _ _ _ _ Hd) as (d & mid' & -> & Hrun & [= ->]).
  exists l, d, rest. rewrite <- append_assoc. rewrite take_app. rewrite append_assoc.
  repeat split; auto.
Qed.

Lemma re_search_county (isdecimal : N -> bool) (s m : string) :
  re_search (county_re isdecimal) s = Some m ->
  exists pre l d post,
    s = pre ++ l ++ d ++ post /\ m = l ++ d
    /\ l <> "" /\ all_chars letter l = true
    /\ run_of isdecimal d.
Proof.
  induction s as [|c s IH]; cbn [re_search].
  - destruct (match_here (county_re isdecimal) "") as [x|] eqn:E; [ | discriminate ].
    intros [= <-]. destruct (match_here_county _ _ _ E) as (l & d & rest & H).
    exists "", l, d, rest. exact H.
  - destruct (match_here (county_re isdecimal) (String c s)) as [x|] eqn:E.
    + intros [= <-]. destruct (match_here_county _ _ _ E) as (l & d & rest & H).
      exists "", l, d, rest. exact H.
    + intros H. destruct (IH H) as (pre & l & d & post & -> & H').
      exists (String c pre), l, d, post. split; [ reflexivity | exact H' ].
Qed.

(** A county whose number is written in Arabic-Indic digits. *)
Example county_id_in_other_digits :
  let id := "OKC" ++ bytes [217; 160; 217; 162; 217; 167] in
  let county := "https://api.weather.gov/zones/county/" ++ id in
  re_search (county_re unicode_decimal) county = Some id
  /\ fst (countyid_from_city (sample_env (ok (point_document county))) "Moore" "OK" fresh)
     = Returns id.
Proof. split; vm_compute; reflexivity. Qed.

Lemma search_returns (r : regex) (v : JSON) (x : option string) :
  search r v = Returns x -> exists text, v = JString text /\ x = re_search r text.
Proof. unfold search. destruct v; intros [= <-]. eauto. Qed.

Lemma countyid_returns_inv (env : Env) (s : Sys) (city_name state_code id : string) :
  fst (countyid_from_city env city_name state_code s) = Returns id ->
  (request_cooldown (self s) <= elapsed env s)%Q
  /\ exists row0 row1 r j properties county,
      fetchone env city_name state_code = Some (row0, row1)
      /\ requests_get env (List.length (sent s)) (points_url row0 row1) = Responded r
      /\ status_code r = 200%Z
      /\ json r = Document j
      /\ getitem j "properties" = Returns properties
      /\ getitem properties "county" = Returns (JString county)
      /\ re_search (county_re (isdecimal env)) county = Some id.
Proof.
  intros H. destruct (Qltb (elapsed env s) (request_cooldown (self s))) eqn:Hg.
  - apply Qltb_true in Hg. revert H. unfold countyid_from_city.
    rewrite (bind_raises _ _ _ _ _ (check_time_refuses env s Hg)). discriminate.
  - apply Qltb_false in Hg. split; [ exact Hg | ]. revert H. pass_gate Hg.
    destruct (fetchone env city_name state_code) as [[row0 row1]|]; [ | cbn; discriminate ].
    rewrite try_finally_stop. unfold_methods. cbn [sent let_through fst].
    unfold points_url.
    destruct (requests_get env _ _) as [r|cls text] eqn:Hget; [ | cbn; discriminate ].
    destruct (status_code r =? 200)%Z eqn:Hst; [ | cbn; discriminate ].
    cbn -[getitem search append].
    destruct (json r) as [j|text] eqn:Hj; [ | cbn; discriminate ].
    cbn -[getitem search append].
    destruct (getitem j "properties") as [properties|e] eqn:Hp;
      [ | apply getitem_raises in Hp; destruct Hp as (? & ? & ->); cbn; discriminate ].
    cbn -[getitem search append].
    destruct (getitem properties "county") as [county|e] eqn:Hc;
      [ | apply getitem_raises in Hc; destruct Hc as (? & ? & ->); cbn; discriminate ].
    cbn -[getitem search append].
    destruct (search (county_re (isdecimal env)) county) as [[m|]|e] eqn:Hs;
      [ | cbn; discriminate
        | apply search_raises in Hs; destruct Hs as (? & ? & ->); cbn; discriminate ].
    cbn. intros [= <-]. apply search_returns in Hs. destruct Hs as (text & -> & Hs).
    exists row0, row1, r, j, properties, text. apply Z.eqb_eq in Hst. repeat split; auto.
Qed.

(** X2. [countyid_from_city] returns [id] exactly when the gate lets the
    call through, the city is in the locations table, the point lookup
    answers 200 with a body that decodes, [body["properties"]["county"]]
    is a string, and [id] is the first run of letters followed by digits
    in it. *)
Theorem countyid_from_city_returns (env : Env) (s : Sys) (city_name state_code id : string) :
  fst (countyid_from_city env city_name state_code s) = Returns id <->
  (request_cooldown (self s) <= elapsed env s)%Q
  /\ exists row0 row1 r j properties county,
      fetchone env city_name state_code = Some (row0, row1)
      /\ requests_get env (List.length (sent s)) (points_url row0 row1) = Responded r
      /\ status_code r = 200%Z
      /\ json r = Document j
      /\ getitem j "properties" = Returns properties
      /\ getitem properties "county" = Returns (JString county)
      /\ re_search (county_re (isdecimal env)) county = Some id.
Proof.
  split; [ apply countyid_returns_inv | ].
  intros (Hg & row0 & row1 & r & j & properties & county & Hrow & Hget & Hst & Hj & Hp & Hc & Hs).
  apply Z.eqb_eq in Hst. unfold points_url in Hget. pass_gate Hg. rewrite Hrow.
  rewrite try_finally_stop. unfold_methods.
  cbn [sent let_through]. rewrite Hget, Hst, Hj.
  cbn -[getitem search append]. rewrite Hp.
  cbn -[getitem search append]. rewrite Hc.
  cbn -[getitem re_search append]. rewrite Hs. reflexivity.
Qed.

Lemma countyid_from_city_returns_witness :
  fst (countyid_from_city (sample_env (ok (point_document county_url))) "Moore" "OK" fresh)
  = Returns "OKC027".
Proof.
  apply (proj2 (countyid_from_city_returns
                  (sample_env (ok (point_document county_url))) fresh "Moore" "OK" "OKC027")).
  split; [ vm_compute; discriminate | ].
  exists "35.3395", "-97.4867",
         {| status_code := 200; json := Document (point_document county_url) |},
         (point_document county_url),
         (JDict [("county", JString county_url)]),
         county_url.
  repeat split; reflexivity.
Defined.

(** *** What a call of the client does *)

Ltac by_cases Hg :=
  unfold countyid_from_city, check_active_alerts;
  cbn [is_None andb negb format];
  first [ rewrite (bind_raises _ _ _ _ _ (check_time_refuses _ _ Hg))
        | rewrite (bind_returns _ _ _ _ _ (check_time_permits _ _ Hg)) ].

Ltac gate_cases env s Hg :=
  destruct (Qltb (elapsed env s) (request_cooldown (self s))) eqn:Hg;
  [ apply Qltb_true in Hg | apply Qltb_false in Hg ].

Lemma no_python_exception_escapes (env : Env) (s : Sys) :
  (forall city_name state_code e,
      fst (countyid_from_city env city_name state_code s) = Raises e ->
      is_client_error e = true)
  /\ (forall state_code county_code e,
        fst (check_active_alerts env state_code county_code s) = Raises e ->
        is_client_error e = true).
Proof.
  split.
  - intros city st e. gate_cases env s Hg; by_cases Hg; [ intros [= <-]; reflexivity | ].
    destruct (fetchone env city st) as [[row0 row1]|]; [ | cbn; intros [= <-]; reflexivity ].
    rewrite try_finally_stop. unfold_methods.
    split_cases; intros He; try discriminate He; injection He as <-; reflexivity.
  - intros sc cc e.
    destruct sc, cc; try (cbn; intros [= <-]; reflexivity).
    all: gate_cases env s Hg; by_cases Hg; [ intros [= <-]; reflexivity | ].
    all: unfold fetch_alerts; rewrite try_finally_stop; unfold_methods.
    all: split_cases; intros He; try discriminate He; injection He as <-; reflexivity.
Qed.

(** X3. No exception of class [Exception] leaves the two methods: what they
    raise is a [RateLimitError], an [APIError] or an [UnknownError]. *)
Theorem only_three_classes_escape (env : Env) (s : Sys) :
  (forall city_name state_code cls text,
      fst (countyid_from_city env city_name state_code s) <> Raises (PyException cls text))
  /\ (forall state_code county_code cls text,
        fst (check_active_alerts env state_code county_code s)
        <> Raises (PyException cls text)).
Proof.
  destruct (no_python_exception_escapes env s) as [Hcounty Halerts]. split.
  - intros city st cls text He. apply Hcounty in He. discriminate He.
  - intros sc cc cls text He. apply Halerts in He. discriminate He.
Qed.

(** X4. When the cooldown has not passed, both methods raise the gate's
    [RateLimitError] and do nothing but read the clock: no request is
    sent, nothing is logged, and the client object is as it was. *)
Theorem refused_call_does_nothing (env : Env) (s : Sys) :
  (elapsed env s < request_cooldown (self s))%Q ->
  let refusal := RateLimitError (request_cooldown (self s) - elapsed env s) in
  (forall city_name state_code,
      countyid_from_city env city_name state_code s = (Raises refusal, ticked s))
  /\ (forall state_code,
        check_active_alerts env (Some state_code) None s = (Raises refusal, ticked s))
  /\ (forall county_code,
        check_active_alerts env None (Some county_code) s = (Raises refusal, ticked s)).
Proof.
  intros Hg. cbv zeta. repeat split; intros; by_cases Hg; reflexivity.
Qed.

Lemma refused_call_does_nothing_witness :
  countyid_from_city (sample_env (ok JNull)) "Moore" "OK" (recent 3)
  = (Raises (RateLimitError (10 - elapsed (sample_env (ok JNull)) (recent 3))),
     ticked (recent 3)).
Proof.
  apply (proj1 (refused_call_does_nothing (sample_env (ok JNull)) (recent 3)
                  ltac:(vm_compute; reflexivity))).
Defined.

(** X6. A call sends at most one request: [countyid_from_city] asks for the
    point of the row found, when the gate lets it through and the city is
    known; [check_active_alerts] asks for the area or the zone, when its
    arguments are legal and the gate lets it through; otherwise nothing is
    sent. *)
Theorem requests_sent (env : Env) (s : Sys) :
  (forall city_name state_code,
      sent (snd (countyid_from_city env city_name state_code s))
      = if Qltb (elapsed env s) (request_cooldown (self s)) then sent s
        else match fetchone env city_name state_code with
             | Some (row0, row1) => (sent s ++ [points_url row0 row1])%list
             | None => sent s
             end)
  /\ (forall state_code county_code,
        sent (snd (check_active_alerts env state_code county_code s))
        = match alerts_url state_code county_code with
          | Some url =>
              if Qltb (elapsed env s) (request_cooldown (self s)) then sent s
              else (sent s ++ [url])%list
          | None => sent s
          end).
Proof.
  split.
  - intros city st. gate_cases env s Hg; by_cases Hg; [ reflexivity | ].
    destruct (fetchone env city st) as [[row0 row1]|]; [ | reflexivity ].
    rewrite try_finally_stop. unfold_methods. unfold points_url.
    split_cases; reflexivity.
  - intros sc cc. unfold alerts_url, area_url, zone_url.
    destruct sc, cc; try reflexivity.
    all: gate_cases env s Hg; by_cases Hg; [ reflexivity | ].
    all: unfold fetch_alerts; rewrite try_finally_stop; unfold_methods.
    all: split_cases; reflexivity.
Qed.

Lemma last_char_app (a b : string) :
  b <> "" -> last_char (a ++ b) = last_char b.
Proof.
  intros Hb. induction a as [|c a IH]; cbn [append]; [ reflexivity | ].
  cbn [last_char]. destruct (a ++ b) eqn:E; [ | exact IH ].
  destruct a; [ cbn in E; contradiction | discriminate ].
Qed.

Lemma not_found_is_not_generic (city_name state_code : string) :
  not_found_message city_name state_code <> could_not_parse.
Proof.
  intros H. apply (f_equal last_char) in H. unfold not_found_message in H.
  rewrite last_char_app in H by (cbn; discriminate).
  change (", " ++ state_code ++ " not found in geolocation database")
    with (String "," (String " " (state_code ++ " not found in geolocation database"))) in H.
  cbn [last_char] in H.
  destruct (state_code ++ " not found in geolocation database") eqn:E.
  - destruct state_code; discriminate.
  - rewrite <- E in H. rewrite last_char_app in H by discriminate.
    vm_compute in H. discriminate.
Qed.

(** X7. The log is only ever appended to, and by one line: a call that ends
    with the generic [UnknownError] has appended one line of the form
    [stamp - text]; every other call leaves the log as it was. *)
Theorem log_grows_with_generic_error (env : Env) (s : Sys) :
  (forall city_name state_code,
      let r := countyid_from_city env city_name state_code s in
      (fst r = Raises (UnknownError could_not_parse) ->
       exists n text,
         api_err_log (snd r)
         = (api_err_log s ++ [log_line (time_strftime env n) text])%list)
      /\ (fst r <> Raises (UnknownError could_not_parse) ->
          api_err_log (snd r) = api_err_log s))
  /\ (forall state_code county_code,
        let r := check_active_alerts env state_code county_code s in
        (fst r = Raises (UnknownError could_not_parse) ->
         exists n text,
           api_err_log (snd r)
           = (api_err_log s ++ [log_line (time_strftime env n) text])%list)
        /\ (fst r <> Raises (UnknownError could_not_parse) ->
            api_err_log (snd r) = api_err_log s)).
Proof.
  unfold log_line. split.
  - intros city st. cbv zeta.
    gate_cases env s Hg; by_cases Hg; [ split; [ discriminate | reflexivity ] | ].
    destruct (fetchone env city st) as [[row0 row1]|].
    + rewrite try_finally_stop. unfold_methods.
      split_cases; (split; [ intros Hr; try discriminate Hr; cbn; do 2 eexists; reflexivity
                           | intros Hr; try reflexivity; exfalso; apply Hr; reflexivity ]).
    + cbn. split; [ | reflexivity ].
      intros [= H]. exfalso. exact (not_found_is_not_generic _ _ H).
  - intros sc cc. cbv zeta.
    destruct sc, cc; try (cbn; split; [ discriminate | reflexivity ]).
    all: gate_cases env s Hg; by_cases Hg; [ split; [ discriminate | reflexivity ] | ].
    all: unfold fetch_alerts; rewrite try_finally_stop; unfold_methods.
    all: split_cases; (split; [ intros Hr; try discriminate Hr; cbn; do 2 eexists; reflexivity
                              | intros Hr; try reflexivity; exfalso; apply Hr; reflexivity ]).
Qed.

Lemma log_grows_with_generic_error_witness :
  exists n text,
    api_err_log (snd (countyid_from_city
                        (sample_env (RequestFailed "ConnectionError" "Connection refused"))
                        "Moore" "OK" fresh))
    = ([] ++ [log_line (time_strftime
                          (sample_env (RequestFailed "ConnectionError" "Connection refused")) n)
                text])%list.
Proof.
  apply (proj1 (proj1 (log_grows_with_generic_error
                         (sample_env (RequestFailed "ConnectionError" "Connection refused"))
                         fresh)
                  "Moore" "OK")).
  vm_compute. reflexivity.
Defined.

(** X8. [check_active_alerts] sets [last_request_time] to the clock's
    reading exactly when the server answers 200; a call that returns a
    document is such a call; otherwise [last_request_time] stays as it
    was. *)
Theorem alerts_last_request_time (env : Env) (s : Sys) (state_code county_code : option string) :
  let r := check_active_alerts env state_code county_code s in
  last_request_time (self (snd r))
  = (if alerts_answered_200 env s state_code county_code
     then time_time env (S (ticks s))
     else last_request_time (self s))
  /\ (forall document, fst r = Returns document ->
                       alerts_answered_200 env s state_code county_code = true).
Proof.
  cbv zeta. unfold alerts_answered_200, alerts_url, area_url, zone_url.
  destruct state_code, county_code; try (cbn; split; [ reflexivity | discriminate ]).
  all: gate_cases env s Hg; by_cases Hg; [ split; [ reflexivity | discriminate ] | ].
  all: unfold fetch_alerts; rewrite try_finally_stop; unfold_methods.
  all: cbn [sent let_through negb andb].
  all: split_cases; (split; [ reflexivity | try discriminate; reflexivity ]).
Qed.

(** The cooldown is the same after every call. *)
Lemma request_cooldown_kept (env : Env) (s : Sys) :
  (forall city_name state_code,
      request_cooldown (self (snd (countyid_from_city env city_name state_code s)))
      = request_cooldown (self s))
  /\ (forall state_code county_code,
        request_cooldown (self (snd (check_active_alerts env state_code county_code s)))
        = request_cooldown (self s)).
Proof.
  split.
  - intros city st. gate_cases env s Hg; by_cases Hg; [ reflexivity | ].
    destruct (fetchone env city st) as [[row0 row1]|]; [ | reflexivity ].
    rewrite try_finally_stop. unfold_methods. split_cases; reflexivity.
  - intros sc cc. destruct sc, cc; try reflexivity.
    all: gate_cases env s Hg; by_cases Hg; [ reflexivity | ].
    all: unfold fetch_alerts; rewrite try_finally_stop; unfold_methods.
    all: split_cases; reflexivity.
Qed.

(** X11. Every call that passes the gate ends with the stop event set; the
    timer task is cancelled too, except when [countyid_from_city] does not
    find the city, where it is left pending. *)
Theorem timer_stopped_after_call (env : Env) (s : Sys) :
  (request_cooldown (self s) <= elapsed env s)%Q ->
  (forall city_name state_code,
      let s' := snd (countyid_from_city env city_name state_code s) in
      _stop_event (self s') = true
      /\ timer_task (self s')
         = match fetchone env city_name state_code with
           | Some _ => Some Cancelled
           | None => Some Pending
           end)
  /\ (forall state_code county_code url,
        alerts_url state_code county_code = Some url ->
        let s' := snd (check_active_alerts env state_code county_code s) in
        _stop_event (self s') = true /\ timer_task (self s') = Some Cancelled).
Proof.
  intros Hg. split.
  - intros city st. cbv zeta. by_cases Hg.
    destruct (fetchone env city st) as [[row0 row1]|]; [ | split; reflexivity ].
    rewrite try_finally_stop. unfold_methods. split_cases; split; reflexivity.
  - intros sc cc url Hurl. cbv zeta.
    destruct sc, cc; try discriminate.
    all: by_cases Hg.
    all: unfold fetch_alerts; rewrite try_finally_stop; unfold_methods.
    all: split_cases; split; reflexivity.
Qed.

Lemma timer_stopped_after_call_witness :
  _stop_event (self (snd (countyid_from_city (sample_env (status 503)) "Norman" "OK" fresh)))
  = true
  /\ timer_task (self (snd (countyid_from_city (sample_env (status 503)) "Norman" "OK" fresh)))
     = Some Pending.
Proof.
  apply (proj1 (timer_stopped_after_call (sample_env (status 503)) fresh
                  ltac:(vm_compute; discriminate))
           "Norman" "OK").
Defined.

Lemma permitted_call_is_not_refused (env : Env) (s : Sys) :
  (request_cooldown (self s) <= elapsed env s)%Q ->
  (forall city_name state_code wait_time,
      fst (countyid_from_city env city_name state_code s)
      <> Raises (RateLimitError wait_time))
  /\ (forall state_code county_code wait_time,
        fst (check_active_alerts env state_code county_code s)
        <> Raises (RateLimitError wait_time)).
Proof.
  intros Hg. split.
  - intros city st w. by_cases Hg.
    destruct (fetchone env city st) as [[row0 row1]|]; [ | cbn; discriminate ].
    rewrite try_finally_stop. unfold_methods. split_cases; discriminate.
  - intros sc cc w. destruct sc, cc; try (cbn; discriminate).
    all: by_cases Hg.
    all: unfold fetch_alerts; rewrite try_finally_stop; unfold_methods.
    all: split_cases; discriminate.
Qed.

(** X5. A [RateLimitError] comes out of the two methods only when the
    cooldown has not passed, and the wait it carries is the cooldown less
    the time elapsed. *)
Theorem rate_limited_only_when_too_soon (env : Env) (s : Sys) (wait_time : Q) :
  (forall city_name state_code,
      fst (countyid_from_city env city_name state_code s) = Raises (RateLimitError wait_time) ->
      (elapsed env s < request_cooldown (self s))%Q
      /\ wait_time = (request_cooldown (self s) - elapsed env s)%Q)
  /\ (forall state_code county_code,
        fst (check_active_alerts env state_code county_code s)
        = Raises (RateLimitError wait_time) ->
        (elapsed env s < request_cooldown (self s))%Q
        /\ wait_time = (request_cooldown (self s) - elapsed env s)%Q).
Proof.
  split.
  - intros city st H. gate_cases env s Hg.
    + split; [ exact Hg | ]. revert H. by_cases Hg. cbn. intros [= ->]. reflexivity.
    + exfalso. exact (proj1 (permitted_call_is_not_refused env s Hg) _ _ _ H).
  - intros sc cc H. gate_cases env s Hg.
    + split; [ exact Hg | ]. revert H.
      destruct sc, cc; try (cbn; discriminate).
      all: by_cases Hg; cbn; intros [= ->]; reflexivity.
    + exfalso. exact (proj2 (permitted_call_is_not_refused env s Hg) _ _ _ H).
Qed.

Lemma rate_limited_only_when_too_soon_witness :
  (elapsed (sample_env (ok JNull)) (recent 3) < request_cooldown (self (recent 3)))%Q
  /\ (7 # 1)%Q = (request_cooldown (self (recent 3)) - elapsed (sample_env (ok JNull)) (recent 3))%Q.
Proof.
  apply (proj1 (rate_limited_only_when_too_soon (sample_env (ok JNull)) (recent 3) (7 # 1)%Q)
           "Moore" "OK").
  vm_compute. reflexivity.
Defined.

Lemma stamped_after_200 (env : Env) (s : Sys) :
  (forall city_name state_code,
      answered_200 env s city_name state_code = true ->
      last_request_time (self (snd (countyid_from_city env city_name state_code s)))
      = time_time env (S (ticks s)))
  /\ (forall state_code county_code,
        alerts_answered_200 env s state_code county_code = true ->
        last_request_time (self (snd (check_active_alerts env state_code county_code s)))
        = time_time env (S (ticks s))).
Proof.
  split.
  - intros city st. unfold answered_200, points_url.
    gate_cases env s Hg; [ discriminate | ]. by_cases Hg.
    destruct (fetchone env city st) as [[row0 row1]|]; [ | discriminate ].
    rewrite try_finally_stop. unfold_methods. cbn [sent let_through negb andb].
    split_cases; solve [ reflexivity | discriminate ].
  - intros sc cc. unfold alerts_answered_200, alerts_url, area_url, zone_url.
    destruct sc, cc; try discriminate.
    all: gate_cases env s Hg; [ discriminate | ]; by_cases Hg.
    all: unfold fetch_alerts; rewrite try_finally_stop; unfold_methods.
    all: cbn [sent let_through negb andb].
    all: split_cases; solve [ reflexivity | discriminate ].
Qed.

Lemma too_soon_after (env : Env) (s s1 : Sys) :
  last_request_time (self s1) = time_time env (S (ticks s)) ->
  request_cooldown (self s1) = request_cooldown (self s) ->
  let since := (time_time env (ticks s1) - time_time env (S (ticks s)))%Q in
  (since < request_cooldown (self s))%Q ->
  (forall city_name state_code,
      fst (countyid_from_city env city_name state_code s1)
      = Raises (RateLimitError (request_cooldown (self s) - since)))
  /\ (forall state_code county_code url,
        alerts_url state_code county_code = Some url ->
        fst (check_active_alerts env state_code county_code s1)
        = Raises (RateLimitError (request_cooldown (self s) - since))).
Proof.
  intros Hl Hc. cbv zeta. intros Hsince.
  assert (Hg : (elapsed env s1 < request_cooldown (self s1))%Q)
    by (unfold elapsed; rewrite Hl, Hc; exact Hsince).
  split.
  - intros city st. by_cases Hg. unfold elapsed. rewrite Hl, Hc. reflexivity.
  - intros sc cc url Hurl. destruct sc, cc; try discriminate.
    all: by_cases Hg; unfold elapsed; rewrite Hl, Hc; reflexivity.
Qed.

(** X9. The two methods share the gate: after a call of either that was
    answered 200, a call of either made before the cooldown has passed
    since that answer is refused, with the remaining wait. *)
Theorem cooldown_follows_200 (env : Env) (s : Sys) :
  (forall city_name state_code,
      answered_200 env s city_name state_code = true ->
      let s1 := snd (countyid_from_city env city_name state_code s) in
      let since := (time_time env (ticks s1) - time_time env (S (ticks s)))%Q in
      (since < request_cooldown (self s))%Q ->
      (forall city_name' state_code',
          fst (countyid_from_city env city_name' state_code' s1)
          = Raises (RateLimitError (request_cooldown (self s) - since)))
      /\ (forall state_code' county_code' url,
            alerts_url state_code' county_code' = Some url ->
            fst (check_active_alerts env state_code' county_code' s1)
            = Raises (RateLimitError (request_cooldown (self s) - since))))
  /\ (forall state_code county_code,
        alerts_answered_200 env s state_code county_code = true ->
        let s1 := snd (check_active_alerts env state_code county_code s) in
        let since := (time_time env (ticks s1) - time_time env (S (ticks s)))%Q in
        (since < request_cooldown (self s))%Q ->
        (forall city_name' state_code',
            fst (countyid_from_city env city_name' state_code' s1)
            = Raises (RateLimitError (request_cooldown (self s) - since)))
        /\ (forall state_code' county_code' url,
              alerts_url state_code' county_code' = Some url ->
              fst (check_active_alerts env state_code' county_code' s1)
              = Raises (RateLimitError (request_cooldown (self s) - since)))).
Proof.
  split.
  - intros city st H200. apply too_soon_after.
    + apply (proj1 (stamped_after_200 env s)). exact H200.
    + apply (proj1 (request_cooldown_kept env s)).
  - intros sc cc H200. apply too_soon_after.
    + apply (proj2 (stamped_after_200 env s)). exact H200.
    + apply (proj2 (request_cooldown_kept env s)).
Qed.

Lemma cooldown_follows_200_witness :
  fst (check_active_alerts (sample_env (ok (point_document county_url))) None (Some "OKC027")
         (snd (countyid_from_city (sample_env (ok (point_document county_url)))
                 "Moore" "OK" fresh)))
  = Raises (RateLimitError
              (request_cooldown (self fresh)
               - (time_time (sample_env (ok (point_document county_url))) 2
                  - time_time (sample_env (ok (point_document county_url))) 1))).
Proof.
  apply (proj2 (proj1 (cooldown_follows_200 (sample_env (ok (point_document county_url))) fresh)
                  "Moore" "OK" ltac:(vm_compute; reflexivity) ltac:(vm_compute; reflexivity))
           None (Some "OKC027") (zone_url "OKC027")).
  reflexivity.
Defined.

(** X10. The wait that the gate computes and hands to [RateLimitError] is
    enough, and a refusal does not put the cooldown off: when a call of
    either method is refused with the wait [wait_time] and the next call,
    of either method, reads the clock at least [wait_time] after the
    refused one read it, the next call is not refused.  (The message of
    the error shows the wait rounded to one decimal; this is about the wait
    itself.) *)
Theorem retry_after_wait (env : Env) (s s1 : Sys) (wait_time : Q) :
  (exists city_name state_code,
      countyid_from_city env city_name state_code s
      = (Raises (RateLimitError wait_time), s1))
  \/ (exists state_code county_code,
         check_active_alerts env state_code county_code s
         = (Raises (RateLimitError wait_time), s1)) ->
  (time_time env (ticks s) + wait_time <= time_time env (ticks s1))%Q ->
  (forall city_name state_code wait_time',
      fst (countyid_from_city env city_name state_code s1)
      <> Raises (RateLimitError wait_time'))
  /\ (forall state_code county_code wait_time',
        fst (check_active_alerts env state_code county_code s1)
        <> Raises (RateLimitError wait_time')).
Proof.
  intros Hfirst Hlater.
  assert (H1 : (elapsed env s < request_cooldown (self s))%Q
               /\ wait_time = (request_cooldown (self s) - elapsed env s)%Q
               /\ s1 = ticked s).
  { destruct Hfirst as [(city & st & H) | (sc & cc & H)]; gate_cases env s Hg.
    - split; [ exact Hg | ]. revert H. by_cases Hg. cbn. intros [= -> <-].
      split; reflexivity.
    - exfalso. apply (proj1 (permitted_call_is_not_refused env s Hg) city st wait_time).
      rewrite H. reflexivity.
    - split; [ exact Hg | ]. revert H.
      destruct sc, cc; try (cbn; discriminate).
      all: by_cases Hg; cbn; intros [= -> <-]; split; reflexivity.
    - exfalso. apply (proj2 (permitted_call_is_not_refused env s Hg) sc cc wait_time).
      rewrite H. reflexivity. }
  destruct H1 as (Hg & -> & ->).
  apply (permitted_call_is_not_refused env (ticked s)).
  unfold elapsed in *. cbn [ticked self ticks] in *. lra.
Qed.

Lemma retry_after_wait_witness :
  fst (check_active_alerts (slow_env (ok (point_document county_url))) None (Some "OKC027")
         (ticked (recent 3)))
  <> Raises (RateLimitError (7 # 1)%Q).
Proof.
  refine (proj2 (retry_after_wait (slow_env (ok (point_document county_url))) (recent 3)
                   (ticked (recent 3)) (7 # 1)%Q _ _) _ _ _).
  - left. exists "Moore", "OK". vm_compute. reflexivity.
  - vm_compute. discriminate.
Defined.

(** X12. For a city that is not in the locations table,
    [countyid_from_city] raises [UnknownError] naming the city and the
    state, sends no request, writes no log line and leaves
    [last_request_time] as it was. *)
Theorem unknown_city (env : Env) (s : Sys) (city_name state_code : string) :
  (request_cooldown (self s) <= elapsed env s)%Q ->
  fetchone env city_name state_code = None ->
  let r := countyid_from_city env city_name state_code s in
  fst r = Raises (UnknownError (not_found_message city_name state_code))
  /\ sent (snd r) = sent s
  /\ api_err_log (snd r) = api_err_log s
  /\ last_request_time (self (snd r)) = last_request_time (self s).
Proof.
  intros Hg Hrow. cbv zeta. by_cases Hg. rewrite Hrow. repeat split; reflexivity.
Qed.

Lemma unknown_city_witness :
  fst (countyid_from_city (sample_env (ok JNull)) "Norman" "OK" fresh)
  = Raises (UnknownError "Norman, OK not found in geolocation database").
Proof.
  apply (unknown_city (sample_env (ok JNull)) fresh "Norman" "OK").
  - vm_compute. discriminate.
  - reflexivity.
Defined.

(** X13. When [requests.get] itself raises, the method raises the generic
    [UnknownError], appends the line [stamp - text] with the text of the
    exception, and leaves [last_request_time] as it was. *)
Theorem request_failure_is_logged (env : Env) (s : Sys) (cls text : string) :
  (request_cooldown (self s) <= elapsed env s)%Q ->
  (forall city_name state_code row0 row1,
      fetchone env city_name state_code = Some (row0, row1) ->
      requests_get env (List.length (sent s)) (points_url row0 row1)
      = RequestFailed cls text ->
      let r := countyid_from_city env city_name state_code s in
      fst r = Raises (UnknownError could_not_parse)
      /\ api_err_log (snd r)
         = (api_err_log s ++ [log_line (time_strftime env (S (ticks s))) text])%list
      /\ last_request_time (self (snd r)) = last_request_time (self s))
  /\ (forall state_code county_code url,
        alerts_url state_code county_code = Some url ->
        requests_get env (List.length (sent s)) url = RequestFailed cls text ->
        let r := check_active_alerts env state_code county_code s in
        fst r = Raises (UnknownError could_not_parse)
        /\ api_err_log (snd r)
           = (api_err_log s ++ [log_line (time_strftime env (S (ticks s))) text])%list
        /\ last_request_time (self (snd r)) = last_request_time (self s)).
Proof.
  intros Hg. split.
  - intros city st row0 row1 Hrow Hget. cbv zeta. unfold points_url in Hget.
    by_cases Hg. rewrite Hrow. rewrite try_finally_stop. unfold_methods.
    cbn [sent let_through]. rewrite Hget. repeat split; reflexivity.
  - intros sc cc url Hurl Hget. cbv zeta.
    destruct sc, cc; try discriminate.
    all: cbv beta iota delta [alerts_url] in Hurl.
    all: match type of Hurl with Some ?u = Some _ => assert (E : url = u) by congruence end.
    all: subst url; unfold area_url, zone_url in Hget.
    all: by_cases Hg; unfold fetch_alerts; rewrite try_finally_stop; unfold_methods.
    all: cbn [sent let_through]; rewrite Hget; repeat split; reflexivity.
Qed.

Lemma request_failure_is_logged_witness :
  let env := sample_env (RequestFailed "ConnectionError" "Connection refused") in
  let r := check_active_alerts env (Some "OK") None fresh in
  fst r = Raises (UnknownError could_not_parse)
  /\ api_err_log (snd r) = ([] ++ [log_line "2023-11-14 22:13:20" "Connection refused"])%list
  /\ last_request_time (self (snd r)) = 0%Q.
Proof.
  apply (proj2 (request_failure_is_logged
                  (sample_env (RequestFailed "ConnectionError" "Connection refused"))
                  fresh "ConnectionError" "Connection refused"
                  ltac:(vm_compute; discriminate))
           (Some "OK") None (area_url "OK")); reflexivity.
Defined.

(** X1. Whatever [countyid_from_city] returns is one or more letters a-z or
    A-Z followed by one or more decimal digits, the digits being those of
    the interpreter's Unicode database. *)
Theorem county_id_shape (env : Env) (s : Sys) (city_name state_code id : string) :
  fst (countyid_from_city env city_name state_code s) = Returns id ->
  exists letters digits,
    id = letters ++ digits
    /\ letters <> "" /\ all_chars letter letters = true
    /\ digits <> "" /\ run_of (isdecimal env) digits.
Proof.
  intros H. apply countyid_returns_inv in H.
  destruct H as (_ & _ & _ & _ & _ & _ & county & _ & _ & _ & _ & _ & _ & Hs).
  destruct (re_search_county _ _ _ Hs) as (pre & l & d & post & _ & Hm & Hl & Hal & Hrun).
  exists l, d. repeat split; auto. exact (run_of_not_empty _ _ Hrun).
Qed.

Lemma county_id_shape_witness :
  exists letters digits,
    "OKC027" = letters ++ digits
    /\ letters <> "" /\ all_chars letter letters = true
    /\ digits <> "" /\ run_of unicode_decimal digits.
Proof.
  apply (county_id_shape (sample_env (ok (point_document county_url))) fresh "Moore" "OK").
  vm_compute. reflexivity.
Defined.

Ltac known_url Hurl url :=
  cbv beta iota delta [alerts_url] in Hurl;
  match type of Hurl with
  | Some ?u = Some _ => let E := fresh "E" in assert (E : url = u) by congruence; subst url
  end;
  unfold area_url, zone_url in *.

(** X24. [check_active_alerts] returns a document exactly when its
    arguments are legal, the gate lets the call through, and the server
    answers 200 with a body that decodes to that document. *)
Theorem check_active_alerts_returns (env : Env) (s : Sys)
        (state_code county_code : option string) (document : JSON) :
  fst (check_active_alerts env state_code county_code s) = Returns document <->
  exists url r,
    alerts_url state_code county_code = Some url
    /\ (request_cooldown (self s) <= elapsed env s)%Q
    /\ requests_get env (List.length (sent s)) url = Responded r
    /\ status_code r = 200%Z
    /\ json r = Document document.
Proof.
  unfold alerts_url, area_url, zone_url. split.
  - intros H. destruct state_code as [sc|], county_code as [cc|];
      try (revert H; cbn; discriminate).
    all: gate_cases env s Hg; revert H; by_cases Hg; [ discriminate | ].
    all: unfold fetch_alerts; rewrite try_finally_stop; unfold_methods.
    all: cbn [sent let_through fst].
    all: destruct (requests_get env _ _) as [r|cls text] eqn:Hget; [ | cbn; discriminate ].
    all: destruct (status_code r =? 200)%Z eqn:Hst; [ | cbn; discriminate ].
    all: cbn; destruct (json r) as [j|text] eqn:Hj; [ | cbn; discriminate ].
    all: cbn; intros [= <-]; apply Z.eqb_eq in Hst.
    all: eexists; exists r; repeat split; eauto.
  - intros (url & r & Hurl & Hg & Hget & Hst & Hj). apply Z.eqb_eq in Hst.
    destruct state_code as [sc|], county_code as [cc|]; try discriminate.
    all: known_url Hurl url.
    all: by_cases Hg; unfold fetch_alerts; rewrite try_finally_stop; unfold_methods.
    all: cbn [sent let_through]; rewrite Hget, Hst, Hj; reflexivity.
Qed.

Lemma check_active_alerts_returns_witness :
  fst (check_active_alerts (sample_env (ok (alerts_document []))) (Some "OK") None fresh)
  = Returns (alerts_document []).
Proof.
  apply (proj2 (check_active_alerts_returns (sample_env (ok (alerts_document []))) fresh
                  (Some "OK") None (alerts_document []))).
  exists (area_url "OK"), {| status_code := 200; json := Document (alerts_document []) |}.
  repeat split; try reflexivity. vm_compute. discriminate.
Defined.

(** X25. A 200 answer whose body does not decode makes
    [check_active_alerts] raise the generic [UnknownError] and log the
    decoder's text; [last_request_time] has been set all the same, so the
    cooldown runs from this failed call. *)
Theorem undecodable_alerts_start_cooldown (env : Env) (s : Sys)
        (state_code county_code : option string) (url : string) (r : Response) (text : string) :
  alerts_url state_code county_code = Some url ->
  (request_cooldown (self s) <= elapsed env s)%Q ->
  requests_get env (List.length (sent s)) url = Responded r ->
  status_code r = 200%Z ->
  json r = Undecodable text ->
  let out := check_active_alerts env state_code county_code s in
  fst out = Raises (UnknownError could_not_parse)
  /\ api_err_log (snd out)
     = (api_err_log s ++ [log_line (time_strftime env (S (S (ticks s)))) text])%list
  /\ last_request_time (self (snd out)) = time_time env (S (ticks s)).
Proof.
  intros Hurl Hg Hget Hst Hj. cbv zeta. apply Z.eqb_eq in Hst.
  destruct state_code as [sc|], county_code as [cc|]; try discriminate.
  all: known_url Hurl url.
  all: by_cases Hg; unfold fetch_alerts; rewrite try_finally_stop; unfold_methods.
  all: cbn [sent let_through]; rewrite Hget, Hst, Hj; repeat split; reflexivity.
Qed.

Lemma undecodable_alerts_start_cooldown_witness :
  let out := check_active_alerts (sample_env (status 200)) None (Some "OKC027") fresh in
  fst out = Raises (UnknownError could_not_parse)
  /\ api_err_log (snd out)
     = ([] ++ [log_line "2023-11-14 22:13:20" "Expecting value: line 1 column 1 (char 0)"])%list
  /\ last_request_time (self (snd out)) = time_time (sample_env (status 200)) 1.
Proof.
  apply (undecodable_alerts_start_cooldown (sample_env (status 200)) fresh
           None (Some "OKC027") (zone_url "OKC027")
           {| status_code := 200;
              json := Undecodable "Expecting value: line 1 column 1 (char 0)" |}
           "Expecting value: line 1 column 1 (char 0)");
    try reflexivity.
  vm_compute. discriminate.
Defined.

(** X26. When the point lookup answers 200 with a document in which
    [["properties"]["county"]] is missing or is not a string,
    [countyid_from_city] raises the generic [UnknownError], logs one line,
    and has set [last_request_time]. *)
Theorem county_field_missing (env : Env) (s : Sys) (city_name state_code row0 row1 : string)
        (r : Response) (j : JSON) :
  (request_cooldown (self s) <= elapsed env s)%Q ->
  fetchone env city_name state_code = Some (row0, row1) ->
  requests_get env (List.length (sent s)) (points_url row0 row1) = Responded r ->
  status_code r = 200%Z ->
  json r = Document j ->
  (forall properties county,
      getitem j "properties" = Returns properties ->
      getitem properties "county" <> Returns (JString county)) ->
  let out := countyid_from_city env city_name state_code s in
  fst out = Raises (UnknownError could_not_parse)
  /\ (exists text,
        api_err_log (snd out)
        = (api_err_log s ++ [log_line (time_strftime env (S (S (ticks s)))) text])%list)
  /\ last_request_time (self (snd out)) = time_time env (S (ticks s)).
Proof.
  intros Hg Hrow Hget Hst Hj Hmiss. cbv zeta. apply Z.eqb_eq in Hst.
  unfold points_url in Hget. pass_gate Hg. rewrite Hrow.
  rewrite try_finally_stop. unfold_methods.
  cbn [sent let_through]. rewrite Hget, Hst, Hj.
  cbn -[getitem search append].
  destruct (getitem j "properties") as [properties|e] eqn:Hp;
    [ | apply getitem_raises in Hp; destruct Hp as (? & ? & ->); cbn;
        repeat split; eexists; reflexivity ].
  cbn -[getitem search append].
  destruct (getitem properties "county") as [county|e] eqn:Hc;
    [ | apply getitem_raises in Hc; destruct Hc as (? & ? & ->); cbn;
        repeat split; eexists; reflexivity ].
  destruct county as [ |bl|z|q|text|l|d];
    try (cbn -[append]; repeat split; eexists; reflexivity).
  exfalso. exact (Hmiss properties text eq_refl Hc).
Qed.

Lemma county_field_missing_witness :
  let out := countyid_from_city (sample_env (ok (JDict [("properties", JDict [("county", JNull)])])))
               "Moore" "OK" fresh in
  fst out = Raises (UnknownError could_not_parse)
  /\ (exists text,
        api_err_log (snd out) = ([] ++ [log_line "2023-11-14 22:13:20" text])%list)
  /\ last_request_time (self (snd out))
     = time_time (sample_env (ok (JDict [("properties", JDict [("county", JNull)])]))) 1.
Proof.
  apply (county_field_missing
           (sample_env (ok (JDict [("properties", JDict [("county", JNull)])])))
           fresh "Moore" "OK" "35.3395" "-97.4867"
           {| status_code := 200;
              json := Document (JDict [("properties", JDict [("county", JNull)])]) |}
           (JDict [("properties", JDict [("county", JNull)])]));
    try reflexivity.
  - vm_compute. discriminate.
  - intros properties county Hp. vm_compute in Hp. injection Hp as <-.
    vm_compute. discriminate.
Defined.

(** *** The analysis of an alert, further *)

Lemma lower_app (a b : string) : lower (a ++ b) = lower a ++ lower b.
Proof. induction a as [|c a IH]; cbn; [ reflexivity | rewrite IH; reflexivity ]. Qed.

Lemma contains_lower (m s : string) :
  contains m s = true -> contains (lower m) (lower s) = true.
Proof.
  intros H. apply contains_true in H. destruct H as (pre & post & ->).
  apply contains_true. exists (lower pre), (lower post). rewrite !lower_app. reflexivity.
Qed.

(** A word found in the lowered alert type is in the lowered headline. *)
Lemma in_alert_type (h m word : string) :
  re_search alert_type_re (lower h) = Some m ->
  contains word (lower m) = true ->
  contains word (lower h) = true.
Proof.
  intros Hm Hw. apply re_search_occurs in Hm. apply contains_lower in Hm.
  rewrite lower_idempotent in Hm. exact (contains_trans _ _ _ Hw Hm).
Qed.






(** On the document of an alert of [Main], the analysis of the document is
    the analysis of [Main]. *)
Lemma dict_get_to_json (p : list (string * list string)) (key : string) (default : list string) :
  dict_get (map (fun kv => (fst kv, JList (map JString (snd kv)))) p) key
           (JList (map JString default))
  = JList (map JString (dict_get p key default)).
Proof.
  induction p as [|[k v] p IH]; cbn; [ reflexivity | ].
  destruct (String.eqb k key); [ reflexivity | exact IH ].
Qed.

Lemma parameter0_to_json (f : AlertFeature) (key : string) (default : list string) :
  parameter0 (to_json f) key (JList (map JString default))
  = obind (item0 (dict_get (parameters f) key default)) (fun v => Returns (JString v)).
Proof.
  unfold parameter0, property, to_json. cbn [getitem lookup String.eqb Ascii.eqb Bool.eqb obind get_of].
  cbn. rewrite dict_get_to_json.
  destruct (dict_get (parameters f) key default); reflexivity.
Qed.

Lemma json_special_flags_to_json (f : AlertFeature) :
  json_special_flags (to_json f) = special_flags f.
Proof.
  unfold json_special_flags, special_flags.
  replace (property (to_json f) "onset") with (Returns (JString (onset f))) by reflexivity.
  replace (property (to_json f) "expires") with (Returns (JString (expires f))) by reflexivity.
  replace (property (to_json f) "headline") with (Returns (JString (headline f))) by reflexivity.
  replace (property (to_json f) "description") with (Returns (JString (description f)))
    by reflexivity.
  cbn [obind lower_of]. cbv zeta.
  destruct (re_search alert_type_re (lower (headline f))) as [m|]; [ | reflexivity ].
  unfold json_tornado_details, json_tstorm_details, json_flood_details,
    tornado_details, tstorm_details, flood_details.
  change (JList [JString ""]) with (JList (map JString [""])).
  change (JList [JString "Unknown"]) with (JList (map JString ["Unknown"])).
  rewrite !parameter0_to_json. cbn [obind lower_of has].
  destruct (contains "tornado" (lower m)).
  { destruct (contains "particularly dangerous situation" (lower (description f)));
      [ reflexivity | ].
    destruct (item0 (dict_get (parameters f) "NWSheadline" [""])); reflexivity. }
  destruct (contains "severe thunderstorm" (lower m)).
  { destruct (item0 (dict_get (parameters f) "damageThreat" ["Unknown"])); reflexivity. }
  destruct (contains "flash flood" (lower m)); [ | reflexivity ].
  destruct (item0 (dict_get (parameters f) "NWSheadline" [""])) as [v|]; [ | reflexivity ].
  cbn [obind lower_of].
  destruct (contains "flash flood emergency" (lower v)); [ reflexivity | ].
  cbn [orb]. destruct (contains "flash flood emergency" (description f)); reflexivity.
Qed.


(** A headline that is null stops the analysis at its first use. *)
Example analysis_of_null_headline :
  json_special_flags
    (JDict [("properties",
             JDict [("onset", JString "2023-11-14T16:13:00-06:00");
                    ("expires", JString "2023-11-14T17:00:00-06:00");
                    ("headline", JNull);
                    ("description", JString "At 413 PM CST, a tornado was located over Moore.");
                    ("parameters", JDict [])])])
  = Raises (PyException "AttributeError" "'NoneType' object has no attribute 'lower'").
Proof. reflexivity. Qed.



Ltac flag_goals :=
  cbn [pds_tor emergency_tor destructive_tstorm emergency_flood only no_flags];
  (split; [ | split; [ | split ] ]);
  (let Hflag := fresh "Hflag" in intros Hflag; try discriminate Hflag).

(** X16. Each flag is backed by the alert: the tornado flags need "tornado"
    in the lowered headline, [destructive_tstorm] needs "severe
    thunderstorm" there and a first damageThreat that lowers to
    "destructive", [emergency_flood] needs "flash flood" there and "flash
    flood emergency" in the lowered NWSheadline or in the description. *)
Theorem flags_follow_headline (feature : AlertFeature) (fl : Flags) :
  special_flags feature = Returns fl ->
  (pds_tor fl = true ->
   contains "tornado" (lower (headline feature)) = true
   /\ contains "particularly dangerous situation" (lower (description feature)) = true)
  /\ (emergency_tor fl = true ->
      contains "tornado" (lower (headline feature)) = true
      /\ contains "particularly dangerous situation" (lower (description feature)) = false
      /\ exists v, item0 (dict_get (parameters feature) "NWSheadline" [""]) = Returns v
                   /\ contains "emergency" (lower v) = true)
  /\ (destructive_tstorm fl = true ->
      contains "severe thunderstorm" (lower (headline feature)) = true
      /\ exists v, item0 (dict_get (parameters feature) "damageThreat" ["Unknown"]) = Returns v
                   /\ lower v = "destructive")
  /\ (emergency_flood fl = true ->
      contains "flash flood" (lower (headline feature)) = true
      /\ exists v, item0 (dict_get (parameters feature) "NWSheadline" [""]) = Returns v
                   /\ (contains "flash flood emergency" (lower v) = true
                       \/ contains "flash flood emergency" (description feature) = true)).
Proof.
  unfold special_flags.
  destruct (re_search alert_type_re (lower (headline feature))) as [m|] eqn:Hm;
    [ | intros [= <-]; flag_goals ].
  destruct (contains "tornado" (lower m)) eqn:Htor.
  { pose proof (in_alert_type _ _ _ Hm Htor) as Hin.
    unfold tornado_details.
    destruct (contains "particularly dangerous situation" (lower (description feature))) eqn:Hpds.
    - intros [= <-]. flag_goals. split; [ exact Hin | reflexivity ].
    - destruct (item0 (dict_get (parameters feature) "NWSheadline" [""])) as [v|err] eqn:Hv;
        [ | discriminate ].
      cbn [obind]. rewrite lower_idempotent.
      destruct (re_search severity_re (lower v)) as [sev|] eqn:Hsev;
        [ | intros [= <-]; flag_goals ].
      destruct (search_severity_values _ _ Hsev) as [-> | ->]; cbn.
      + intros [= <-]. flag_goals.
      + intros [= <-]. flag_goals. split; [ exact Hin | split; [ reflexivity | ] ].
        exists v. split; [ reflexivity | ]. apply search_severity_emergency. exact Hsev. }
  destruct (contains "severe thunderstorm" (lower m)) eqn:Hts.
  { pose proof (in_alert_type _ _ _ Hm Hts) as Hin.
    unfold tstorm_details.
    destruct (item0 (dict_get (parameters feature) "damageThreat" ["Unknown"])) as [v|err] eqn:Hv;
      [ | discriminate ].
    cbn [obind]. destruct (String.eqb (lower v) "destructive") eqn:Hd.
    - intros [= <-]. flag_goals. split; [ exact Hin | ].
      exists v. split; [ reflexivity | ]. apply String.eqb_eq. exact Hd.
    - intros [= <-]. flag_goals. }
  destruct (contains "flash flood" (lower m)) eqn:Hff.
  { pose proof (in_alert_type _ _ _ Hm Hff) as Hin.
    unfold flood_details.
    destruct (item0 (dict_get (parameters feature) "NWSheadline" [""])) as [v|err] eqn:Hv;
      [ | discriminate ].
    cbn [obind].
    destruct (contains "flash flood emergency" (lower v)) eqn:H1; cbn [orb].
    - intros [= <-]. flag_goals. split; [ exact Hin | ].
      exists v. split; [ reflexivity | ]. left. exact H1.
    - destruct (contains "flash flood emergency" (description feature)) eqn:H2.
      + intros [= <-]. flag_goals. split; [ exact Hin | ].
        exists v. split; [ reflexivity | ]. right. reflexivity.
      + intros [= <-]. flag_goals. }
  intros [= <-]. flag_goals.
Qed.

Lemma flags_follow_headline_witness :
  contains "severe thunderstorm" (lower (headline sample_tstorm)) = true
  /\ exists v, item0 (dict_get (parameters sample_tstorm) "damageThreat" ["Unknown"]) = Returns v
               /\ lower v = "destructive".
Proof.
  apply (proj1 (proj2 (proj2 (flags_follow_headline sample_tstorm
                                (only false false true false)
                                ltac:(vm_compute; reflexivity))))).
  reflexivity.
Defined.

Lemma special_flags_cases (feature : AlertFeature) (fl : Flags) :
  special_flags feature = Returns fl ->
  fl = no_flags \/ fl = only true false false false \/ fl = only false true false false
  \/ fl = only false false true false \/ fl = only false false false true.
Proof.
  unfold special_flags, tornado_details, tstorm_details, flood_details, obind.
  intros H. split_branches H.
  all: try discriminate.
  all: injection H as <-; unfold only, no_flags; auto 6.
Qed.

(** X17. Color and title go together: an embed is red with the headline,
    purple with one of the two tornado titles, orange with the
    thunderstorm title, or blue with the flood title. *)
Theorem five_presentations (feature : AlertFeature) (e : Embed) :
  feature_embed feature = Returns e ->
  (embed_color e = 16711705%Z /\ title e = headline feature)
  \/ (embed_color e = 8388736%Z
      /\ title e = pic_pds_tor ++ " PDS TORNADO WARNING " ++ pic_pds_tor)
  \/ (embed_color e = 8388736%Z
      /\ title e = pic_tor_emergency ++ " TORNADO EMERGENCY " ++ pic_tor_emergency)
  \/ (embed_color e = 16753920%Z
      /\ title e = pic_tstorm ++ " DESTRUCTIVE SVR. THUNDERSTORM WARNING " ++ pic_tstorm)
  \/ (embed_color e = 255%Z
      /\ title e = pic_flood ++ " FLASH FLOOD EMERGENCY " ++ pic_flood).
Proof.
  unfold feature_embed.
  destruct (special_flags feature) as [fl|err] eqn:Hfl; [ | discriminate ].
  cbn [obind]. intros [= <-].
  destruct (special_flags_cases _ _ Hfl) as [-> | [-> | [-> | [-> | ->]]]].
  - left. split; reflexivity.
  - right; left. split; reflexivity.
  - right; right; left. split; reflexivity.
  - right; right; right; left. split; reflexivity.
  - right; right; right; right. split; reflexivity.
Qed.

Lemma five_presentations_witness :
  let e := make_embed sample_flood (only false false false true) in
  (embed_color e = 16711705%Z /\ title e = headline sample_flood)
  \/ (embed_color e = 8388736%Z
      /\ title e = pic_pds_tor ++ " PDS TORNADO WARNING " ++ pic_pds_tor)
  \/ (embed_color e = 8388736%Z
      /\ title e = pic_tor_emergency ++ " TORNADO EMERGENCY " ++ pic_tor_emergency)
  \/ (embed_color e = 16753920%Z
      /\ title e = pic_tstorm ++ " DESTRUCTIVE SVR. THUNDERSTORM WARNING " ++ pic_tstorm)
  \/ (embed_color e = 255%Z
      /\ title e = pic_flood ++ " FLASH FLOOD EMERGENCY " ++ pic_flood).
Proof.
  apply (five_presentations sample_flood). vm_compute. reflexivity.
Defined.

(** *** The commands *)

(** X18. [slash_addcity] defers and then answers "City added to bot
    database", whatever happened; the INSERT is executed and committed,
    with the county id and the city, exactly when the state is known and
    [countyid_from_city] returns. *)
Theorem slash_addcity_answer (env : BotEnv) (b : Bot) (city state_name : string) :
  let r := slash_addcity env city state_name b in
  fst r = Returns tt
  /\ replies (snd r) = (replies b ++ [Defer; FollowupSend city_added false])%list
  /\ (executed (snd r), commits (snd r))
     = match parse_state_name env state_name with
       | Some state_code =>
           match fst (countyid_from_city (nws_env env) city state_code (nws b)) with
           | Returns county_code =>
               ((executed b ++ [(insert_county, [county_code; city])])%list, S (commits b))
           | Raises _ => (executed b, commits b)
           end
       | None => (executed b, commits b)
       end.
Proof.
  cbv zeta. unfold slash_addcity.
  destruct (parse_state_name env state_name) as [state_code|].
  - unfold and_then, respond, try_except_else, client, execute, commit.
    cbn [nws replies executed commits].
    destruct (countyid_from_city (nws_env env) city state_code (nws b)) as [[id|e] s'] eqn:E.
    + cbn. rewrite <- app_assoc. repeat split.
    + assert (He : is_client_error e = true).
      { apply (proj1 (no_python_exception_escapes (nws_env env) (nws b)) city state_code).
        rewrite E. reflexivity. }
      rewrite He. cbn. rewrite <- app_assoc. repeat split.
  - cbn. rewrite <- app_assoc. repeat split.
Qed.

(** X19. Without any argument, and for a user other than DEVID_1,
    [slash_getwarnings] sends one ephemeral message and touches nothing
    else: the client is not called. *)
Theorem getwarnings_turned_away (env : BotEnv) (b : Bot) (user_id : Z) :
  slash_getwarnings env user_id None None None b
  = (Returns Answered,
     replied b [SendMessage "You must provide at least 1 argument" true])
  /\ (forall dev city state county_code,
        is_None city && is_None state && is_None county_code = false ->
        devid_1 env = Returns dev ->
        user_id <> dev ->
        slash_getwarnings env user_id city state county_code b
        = (Returns Answered,
           replied b [SendMessage "You are not authorized to run this command." true])).
Proof.
  split; [ reflexivity | ].
  intros dev city state county_code Hargs Hdev Hne.
  unfold slash_getwarnings. rewrite Hargs.
  unfold and_then. rewrite Hdev. apply Z.eqb_neq in Hne. rewrite Hne. reflexivity.
Qed.

Lemma getwarnings_turned_away_witness :
  slash_getwarnings (sample_bot_env (ok JNull)) 7 None None (Some "OKC027") new_bot
  = (Returns Answered,
     replied new_bot [SendMessage "You are not authorized to run this command." true]).
Proof.
  apply (proj2 (getwarnings_turned_away (sample_bot_env (ok JNull)) new_bot 7)
           42%Z None None (Some "OKC027")).
  - reflexivity.
  - reflexivity.
  - discriminate.
Defined.

Ltac enter_getwarnings Hdev :=
  unfold slash_getwarnings; cbn [is_None andb];
  unfold and_then; unfold authorized in Hdev; rewrite !Hdev; cbv beta iota;
  rewrite !Z.eqb_refl; cbn [negb].

(** X20. When a city is given, [slash_getwarnings] ignores the state and
    the county code: it calls [check_active_alerts] with the county stored
    for the city, or answers "City not found in database". *)
Theorem getwarnings_city_first (env : BotEnv) (b : Bot) (user_id : Z)
        (city : string) (state county_code : option string) :
  authorized env user_id ->
  let r := slash_getwarnings env user_id (Some city) state county_code b in
  match select_nws_county_id env city with
  | None =>
      r = (Returns Answered, replied b [Defer; FollowupSend "City not found in database" true])
  | Some res0 =>
      nws (snd r) = snd (check_active_alerts (nws_env env) None res0 (nws b))
  end.
Proof.
  intros Hdev. cbv zeta. enter_getwarnings Hdev.
  unfold fetch_alerts_for.
  destruct (select_nws_county_id env city) as [res0|].
  - unfold and_then, client, respond, pure. cbn [nws replies executed commits].
    destruct (check_active_alerts (nws_env env) None res0 (nws b)) as [[alerts|e] s'];
      [ | reflexivity ].
    cbn [snd]. destruct (no_warnings alerts) as [[|]|e]; try reflexivity.
    destruct (getitem alerts "features"); reflexivity.
  - unfold and_then, respond, pure, replied. cbn. rewrite <- app_assoc. reflexivity.
Qed.

Lemma getwarnings_city_first_witness :
  slash_getwarnings (sample_bot_env (ok JNull)) 42 (Some "Norman") (Some "Oklahoma")
    (Some "OKC027") new_bot
  = (Returns Answered, replied new_bot [Defer; FollowupSend "City not found in database" true]).
Proof.
  apply (getwarnings_city_first (sample_bot_env (ok JNull)) new_bot 42 "Norman"
           (Some "Oklahoma") (Some "OKC027")).
  reflexivity.
Defined.

(** X21. When no city but a state is given, [slash_getwarnings] ignores the
    county code: it calls [check_active_alerts] with the state code, or
    answers "State not found in database" when there is none or it is
    empty. *)
Theorem getwarnings_state_second (env : BotEnv) (b : Bot) (user_id : Z)
        (state : string) (county_code : option string) :
  authorized env user_id ->
  let r := slash_getwarnings env user_id None (Some state) county_code b in
  if truthy_str (parse_state_name env state) then
    nws (snd r)
    = snd (check_active_alerts (nws_env env) (parse_state_name env state) None (nws b))
  else
    r = (Returns Answered, replied b [Defer; FollowupSend "State not found in database" true]).
Proof.
  intros Hdev. cbv zeta. enter_getwarnings Hdev.
  unfold fetch_alerts_for.
  destruct (truthy_str (parse_state_name env state)).
  - unfold and_then, client, respond, pure. cbn [nws replies executed commits].
    destruct (check_active_alerts (nws_env env) (parse_state_name env state) None (nws b))
      as [[alerts|e] s']; [ | reflexivity ].
    cbn [snd]. destruct (no_warnings alerts) as [[|]|e]; try reflexivity.
    destruct (getitem alerts "features"); reflexivity.
  - unfold and_then, respond, pure, replied. cbn. rewrite <- app_assoc. reflexivity.
Qed.

Lemma getwarnings_state_second_witness :
  slash_getwarnings (sample_bot_env (ok JNull)) 42 None (Some "Texas") (Some "OKC027") new_bot
  = (Returns Answered, replied new_bot [Defer; FollowupSend "State not found in database" true]).
Proof.
  apply (getwarnings_state_second (sample_bot_env (ok JNull)) new_bot 42 "Texas"
           (Some "OKC027")).
  reflexivity.
Defined.

Lemma alerts_call_has_argument (env : BotEnv) (city state county_code : option string)
      (call : option string * option string) :
  alerts_call env city state county_code = Some call ->
  is_None city && is_None state && is_None county_code = false.
Proof. destruct city, state, county_code; try reflexivity. discriminate. Qed.

(** Once the user is let in and one of the three calls is reached, the
    command is that call and what follows it. *)
Lemma getwarnings_after_call (env : BotEnv) (b : Bot) (user_id : Z)
      (city state county_code state_code' county_code' : option string) :
  authorized env user_id ->
  alerts_call env city state county_code = Some (state_code', county_code') ->
  slash_getwarnings env user_id city state county_code b
  = match check_active_alerts (nws_env env) state_code' county_code' (nws b) with
    | (Raises e, s') =>
        (Raises e, {| nws := s'; replies := (replies b ++ [Defer])%list;
                      executed := executed b; commits := commits b |})
    | (Returns alerts, s') =>
        match no_warnings alerts with
        | Raises e =>
            (Raises e, {| nws := s'; replies := (replies b ++ [Defer])%list;
                          executed := executed b; commits := commits b |})
        | Returns true =>
            (Returns Answered,
             {| nws := s';
                replies := (replies b
                            ++ [Defer; FollowupSend "No active warnings found." true])%list;
                executed := executed b; commits := commits b |})
        | Returns false =>
            match getitem alerts "features" with
            | Returns features =>
                (Returns (Render features),
                 {| nws := s'; replies := (replies b ++ [Defer])%list;
                    executed := executed b; commits := commits b |})
            | Raises e =>
                (Raises e, {| nws := s'; replies := (replies b ++ [Defer])%list;
                              executed := executed b; commits := commits b |})
            end
        end
    end.
Proof.
  intros Hdev Hcall. pose proof (alerts_call_has_argument _ _ _ _ _ Hcall) as Hargs.
  unfold slash_getwarnings. rewrite Hargs.
  unfold and_then; unfold authorized in Hdev; rewrite !Hdev; cbv beta iota;
    rewrite !Z.eqb_refl; cbn [negb].
  unfold alerts_call in Hcall. unfold fetch_alerts_for.
  destruct city as [city|].
  - destruct (select_nws_county_id env city) as [res0|]; [ | discriminate ].
    injection Hcall as <- <-.
    unfold and_then, client, respond, pure. cbn [nws replies executed commits].
    destruct (check_active_alerts (nws_env env) None res0 (nws b)) as [[alerts|e] s'];
      [ | reflexivity ].
    destruct (no_warnings alerts) as [[|]|e];
      first [ reflexivity
            | destruct (getitem alerts "features"); reflexivity
            | cbn; rewrite <- app_assoc; reflexivity ].
  - destruct state as [state|].
    + destruct (truthy_str (parse_state_name env state)); [ | discriminate ].
      injection Hcall as <- <-.
      unfold and_then, client, respond, pure. cbn [nws replies executed commits].
      destruct (check_active_alerts (nws_env env) (parse_state_name env state) None (nws b))
        as [[alerts|e] s']; [ | reflexivity ].
      destruct (no_warnings alerts) as [[|]|e];
      first [ reflexivity
            | destruct (getitem alerts "features"); reflexivity
            | cbn; rewrite <- app_assoc; reflexivity ].
    + destruct county_code as [county_code|]; [ | discriminate ].
      injection Hcall as <- <-.
      unfold and_then, client, respond, pure. cbn [nws replies executed commits].
      destruct (check_active_alerts (nws_env env) None (Some county_code) (nws b))
        as [[alerts|e] s']; [ | reflexivity ].
      destruct (no_warnings alerts) as [[|]|e];
      first [ reflexivity
            | destruct (getitem alerts "features"); reflexivity
            | cbn; rewrite <- app_assoc; reflexivity ].
Qed.

(** X22. [slash_getwarnings] does not catch what [check_active_alerts]
    raises, at any of its three calls: the error leaves the command, which
    has deferred and sent no follow-up. *)
Theorem getwarnings_lets_errors_through (env : BotEnv) (b : Bot) (user_id : Z)
        (city state county_code state_code' county_code' : option string) (e : exn) :
  authorized env user_id ->
  alerts_call env city state county_code = Some (state_code', county_code') ->
  fst (check_active_alerts (nws_env env) state_code' county_code' (nws b)) = Raises e ->
  let r := slash_getwarnings env user_id city state county_code b in
  fst r = Raises e /\ replies (snd r) = (replies b ++ [Defer])%list.
Proof.
  intros Hdev Hcall He. cbv zeta. rewrite (getwarnings_after_call _ _ _ _ _ _ _ _ Hdev Hcall).
  destruct (check_active_alerts (nws_env env) state_code' county_code' (nws b)) as [r s'].
  cbn [fst] in He. subst r. split; reflexivity.
Qed.

Lemma getwarnings_lets_errors_through_witness :
  let r := slash_getwarnings (sample_bot_env (status 503)) 42 (Some "Moore") (Some "Oklahoma")
             None new_bot in
  fst r = Raises (APIError 503) /\ replies (snd r) = ([] ++ [Defer])%list.
Proof.
  apply (getwarnings_lets_errors_through (sample_bot_env (status 503)) new_bot 42
           (Some "Moore") (Some "Oklahoma") None None (Some "OKC027")).
  - reflexivity.
  - reflexivity.
  - vm_compute. reflexivity.
Defined.

(** X23. Whichever of its three calls gave it, when the document returned
    is a dict, [slash_getwarnings] answers "No active warnings found." if
    it has no "features" or an empty list of them, and goes on to the loop
    with the list if it is not empty. *)
Theorem getwarnings_no_features (env : BotEnv) (b : Bot) (user_id : Z)
        (city state county_code state_code' county_code' : option string)
        (d : list (string * JSON)) :
  authorized env user_id ->
  alerts_call env city state county_code = Some (state_code', county_code') ->
  fst (check_active_alerts (nws_env env) state_code' county_code' (nws b))
  = Returns (JDict d) ->
  let r := slash_getwarnings env user_id city state county_code b in
  (lookup d "features" = None \/ lookup d "features" = Some (JList []) ->
   fst r = Returns Answered
   /\ replies (snd r)
      = (replies b ++ [Defer; FollowupSend "No active warnings found." true])%list)
  /\ (forall feature features,
        lookup d "features" = Some (JList (feature :: features)) ->
        fst r = Returns (Render (JList (feature :: features)))
        /\ replies (snd r) = (replies b ++ [Defer])%list).
Proof.
  intros Hdev Hcall Hd. cbv zeta. rewrite (getwarnings_after_call _ _ _ _ _ _ _ _ Hdev Hcall).
  destruct (check_active_alerts (nws_env env) state_code' county_code' (nws b)) as [r s'].
  cbn [fst] in Hd. subst r.
  unfold no_warnings, has, getitem.
  destruct d as [|kv d'].
  - cbn. split; [ split; reflexivity | discriminate ].
  - cbn [truthy negb]. split.
    + intros [Hl | Hl]; rewrite Hl; cbn; split; reflexivity.
    + intros f fs Hl. rewrite Hl. cbn. split; reflexivity.
Qed.

Lemma getwarnings_no_features_witness :
  let r := slash_getwarnings (sample_bot_env (ok (alerts_document []))) 42 None
             (Some "Oklahoma") None new_bot in
  fst r = Returns Answered
  /\ replies (snd r) = ([] ++ [Defer; FollowupSend "No active warnings found." true])%list.
Proof.
  apply (proj1 (getwarnings_no_features (sample_bot_env (ok (alerts_document []))) new_bot 42
                  None (Some "Oklahoma") None (Some "OK") None
                  [("type", JString "FeatureCollection"); ("features", JList [])]
                  ltac:(reflexivity) ltac:(reflexivity) ltac:(vm_compute; reflexivity))).
  right. reflexivity.
Defined.

